(** * University appointment system: a shallow embedding of [app.py]

    The Flask view functions of [app.py] are embedded as computations over an
    explicit world: the five SQLAlchemy tables, the Flask session dictionary
    and the queue of flashed messages.  The properties of the written
    specification are then proved about these computations. *)

From stdpp Require Import gmap strings list sorting.
From Stdlib Require Import ZArith Lia Ascii.

(** ** Database models *)

(** A value held by an [Integer] column that the code fills from a form
    string: either an integer, or something that is not an integer and is kept
    by its text. *)
Inductive dbval :=
| DInt (z : Z)
| DOther (raw : string).

Global Instance dbval_eq_dec : EqDecision dbval.
Proof. solve_decision. Defined.

Module Department.
Record t := mk {
  department_id : Z;
  department_name : string;
  building : option string;
  phone : option string
}.
End Department.

Module User.
Record t := mk {
  user_id : Z;
  name : string;
  email : string;
  role : string;
  password_hash : string;
  department_id : option dbval
}.
End User.

Module Availability.
Record t := mk {
  availability_id : Z;
  faculty_id : Z;
  day_of_week : string;
  start_time : string;
  end_time : string;
  is_available : option bool
}.
End Availability.

Module Appointment.
Record t := mk {
  appointment_id : Z;
  student_id : Z;
  faculty_id : Z;
  appointment_date : string;
  start_time : string;
  end_time : string;
  status : option string;
  purpose : option string
}.

(** [appt.status = s], every other column kept. *)
Definition set_status (s : string) (a : t) : t :=
  mk (appointment_id a) (student_id a) (faculty_id a) (appointment_date a)
     (start_time a) (end_time a) (Some s) (purpose a).
End Appointment.

Module Notification.
Record t := mk {
  notification_id : Z;
  appointment_id : Z;
  message : string;
  created_at : option Z;
  sent_status : option string
}.
End Notification.

(** The tables, each in insertion order. *)
Module Db.
Record t := mk {
  departments : list Department.t;
  users : list User.t;
  availability : list Availability.t;
  appointments : list Appointment.t;
  notifications : list Notification.t
}.

Definition empty : t := mk [] [] [] [] [].

Definition with_departments (l : list Department.t) (d : t) : t :=
  mk l (users d) (availability d) (appointments d) (notifications d).
Definition with_users (l : list User.t) (d : t) : t :=
  mk (departments d) l (availability d) (appointments d) (notifications d).
Definition with_availability (l : list Availability.t) (d : t) : t :=
  mk (departments d) (users d) l (appointments d) (notifications d).
Definition with_appointments (l : list Appointment.t) (d : t) : t :=
  mk (departments d) (users d) (availability d) l (notifications d).
Definition with_notifications (l : list Notification.t) (d : t) : t :=
  mk (departments d) (users d) (availability d) (appointments d) l.
End Db.

(** ** Storage layer *)

(** The largest key of a table, [None] when the table is empty. *)
Fixpoint max_rowid (ids : list Z) : option Z :=
  match ids with
  | [] => None
  | i :: rest =>
      match max_rowid rest with
      | None => Some i
      | Some m => Some (Z.max i m)
      end
  end.

(** Key given to a row inserted without one into an [INTEGER PRIMARY KEY]
    table: 1 in an empty table, otherwise one more than the largest key. *)
Definition next_rowid (ids : list Z) : Z :=
  match max_rowid ids with
  | None => 1
  | Some m => m + 1
  end%Z.

(** The integers the storage layer accepts as a parameter of a statement:
    those of 64 bits, signed.  Binding any other raises [OverflowError] before
    anything is written.  The keys held in the store are within that range, so
    the views can only meet the error on an integer taken from the request. *)
Definition fits_int64 (z : Z) : Prop := (- 2 ^ 63 ≤ z < 2 ^ 63)%Z.

Global Instance fits_int64_dec z : Decision (fits_int64 z).
Proof. unfold fits_int64. apply _. Defined.

(** What the schema itself enforces on a stored state: primary keys are
    unique, and so are the two [unique=True] columns. *)
Record db_consistent (d : Db.t) : Prop := {
  department_pk : NoDup (Department.department_id <$> Db.departments d);
  department_name_unique : NoDup (Department.department_name <$> Db.departments d);
  user_pk : NoDup (User.user_id <$> Db.users d);
  user_email_unique : NoDup (User.email <$> Db.users d);
  availability_pk : NoDup (Availability.availability_id <$> Db.availability d);
  appointment_pk : NoDup (Appointment.appointment_id <$> Db.appointments d);
  notification_pk : NoDup (Notification.notification_id <$> Db.notifications d)
}.

(** ** Requests, responses and the world a view runs in *)

Record request := {
  method : string;
  form : gmap string string
}.

(** The templates, each with the keyword arguments the view passes. *)
Inductive page :=
| register_html (departments : list Department.t)
| login_html
| dashboard_html (user : User.t) (total_appointments my_appointments : nat)
    (chart_labels : list string) (chart_values : list nat)
| appointments_html (appointments : list Appointment.t) (user : User.t)
| new_appointment_html (faculty_members : list User.t)
| availability_html (slots : list Availability.t)
| departments_html (departments : list Department.t).

Inductive response :=
| redirect (endpoint : string)
| render_template (p : page)
| http_error (code : Z)
| uncaught (exception : string).

(** [flashed] is the queue written by [flash]; Flask keeps it inside the
    session, so [session.clear()] empties it as well. *)
Record world := {
  db : Db.t;
  session : gmap string Z;
  flashed : list (string * string)
}.

Definition with_db (d : Db.t) (w : world) : world :=
  {| db := d; session := session w; flashed := flashed w |}.
Definition with_session (s : gmap string Z) (w : world) : world :=
  {| db := db w; session := s; flashed := flashed w |}.

(** A computation in a view: it reads and writes the world and either yields a
    value or stops with the response of a raised error. *)
Definition handler (A : Type) : Type := world → (A + response) * world.

Definition ret {A} (a : A) : handler A := λ w, (inl a, w).
Definition raise {A} (r : response) : handler A := λ w, (inr r, w).
Definition bind {A B} (m : handler A) (k : A → handler B) : handler B :=
  λ w, match m w with
       | (inl a, w') => k a w'
       | (inr r, w') => (inr r, w')
       end.

Notation "'do' x <- m ; k" := (bind m (λ x, k))
  (at level 10, x name, m at level 100, k at level 200,
   format "'[v' 'do'  x  <-  m ; '/' k ']'").
Notation "m ;; k" := (bind m (λ _, k))
  (at level 100, k at level 200, right associativity).

Definition get_db : handler Db.t := λ w, (inl (db w), w).
Definition get_session : handler (gmap string Z) := λ w, (inl (session w), w).
Definition commit (d : Db.t) : handler unit := λ w, (inl tt, with_db d w).

Definition flash (message category : string) : handler unit :=
  λ w, (inl tt, {| db := db w; session := session w;
                   flashed := flashed w ++ [(message, category)] |}).

(** [session["user_id"] = uid] *)
Definition session_set (k : string) (v : Z) : handler unit :=
  λ w, (inl tt, with_session (<[k := v]> (session w)) w).

(** [session.clear()] *)
Definition session_clear : handler unit :=
  λ w, (inl tt, {| db := db w; session := ∅; flashed := [] |}).

(** [request.form[k]]: a missing key is a 400 response. *)
Definition form_item (req : request) (k : string) : handler string :=
  match form req !! k with
  | Some v => ret v
  | None => raise (http_error 400)
  end.

(** First attribute access on the result of [current_user()], which may be
    [None]. *)
Definition deref {A} (o : option A) : handler A :=
  match o with
  | Some a => ret a
  | None => raise (uncaught "AttributeError")
  end.

(** The response of a view and the world it leaves. *)
Definition run (v : handler response) (w : world) : response * world :=
  match v w with
  | (inl r, w') => (r, w')
  | (inr r, w') => (r, w')
  end.

(** ** Functions of the platform

    [app.py] calls these but does not define them: werkzeug's password
    hashing (the salt it draws is made an argument), Python's [int] on a form
    string, and the conversion the storage layer applies to a string bound to
    an [Integer] column. *)
Class Platform := {
  generate_password_hash : string → string → string;
  check_password_hash : string → string → bool;
  int : string → option Z;
  integer_affinity : string → dbval
}.

(** ** Queries and inserts *)

(** [User.query.get(uid)] *)
Definition get_user (d : Db.t) (uid : Z) : option User.t :=
  head (filter (λ u, User.user_id u = uid) (Db.users d)).

(** [User.query.filter_by(email=email).first()] *)
Definition user_by_email (d : Db.t) (email : string) : option User.t :=
  head (filter (λ u, User.email u = email) (Db.users d)).

(** [Appointment.query.get(appointment_id)] *)
Definition get_appointment (d : Db.t) (appointment_id : Z) : option Appointment.t :=
  head (filter (λ a, Appointment.appointment_id a = appointment_id) (Db.appointments d)).

(** [Appointment.query.get_or_404(appointment_id)].  The key comes from the
    URL; one outside 64 bits cannot be bound to the query, and since stored
    keys are within 64 bits that is always a key no row has. *)
Definition get_or_404 (appointment_id : Z) : handler Appointment.t :=
  do d <- get_db;
  match get_appointment d appointment_id with
  | Some a => ret a
  | None => if decide (fits_int64 appointment_id) then raise (http_error 404)
            else raise (uncaught "OverflowError")
  end.

(** [db.session.add(row); db.session.commit()] for each model.  The row is
    built from the key the table assigns; the two unique columns are checked
    by the storage layer, whose error the views do not catch. *)
Definition add_department (row : Z → Department.t) : handler Department.t :=
  do d <- get_db;
  let r := row (next_rowid (Department.department_id <$> Db.departments d)) in
  if decide (Department.department_name r ∈ Department.department_name <$> Db.departments d)
  then raise (uncaught "IntegrityError")
  else commit (Db.with_departments (Db.departments d ++ [r]) d);; ret r.

Definition add_user (row : Z → User.t) : handler User.t :=
  do d <- get_db;
  let r := row (next_rowid (User.user_id <$> Db.users d)) in
  if decide (User.email r ∈ User.email <$> Db.users d)
  then raise (uncaught "IntegrityError")
  else commit (Db.with_users (Db.users d ++ [r]) d);; ret r.

Definition add_availability (row : Z → Availability.t) : handler Availability.t :=
  do d <- get_db;
  let r := row (next_rowid (Availability.availability_id <$> Db.availability d)) in
  commit (Db.with_availability (Db.availability d ++ [r]) d);; ret r.

(** An appointment's faculty id is the one integer a view stores as it came
    from the request: outside 64 bits the commit fails. *)
Definition add_appointment (row : Z → Appointment.t) : handler Appointment.t :=
  do d <- get_db;
  let r := row (next_rowid (Appointment.appointment_id <$> Db.appointments d)) in
  if decide (fits_int64 (Appointment.faculty_id r))
  then commit (Db.with_appointments (Db.appointments d ++ [r]) d);; ret r
  else raise (uncaught "OverflowError").

Definition add_notification (row : Z → Notification.t) : handler Notification.t :=
  do d <- get_db;
  let r := row (next_rowid (Notification.notification_id <$> Db.notifications d)) in
  commit (Db.with_notifications (Db.notifications d ++ [r]) d);; ret r.

(** The appointments table after the row with key [appointment_id] had its
    status set to [s]; the other rows are kept. *)
Definition set_status_of (appointment_id : Z) (s : string)
    (rows : list Appointment.t) : list Appointment.t :=
  (λ a, if decide (Appointment.appointment_id a = appointment_id)
        then Appointment.set_status s a else a) <$> rows.

(** [appt.status = s; db.session.commit()] *)
Definition update_status (appointment_id : Z) (s : string) : handler unit :=
  do d <- get_db;
  commit (Db.with_appointments (set_status_of appointment_id s (Db.appointments d)) d).

(** ** Helper functions *)

(** The key under "user_id" is one that [login] took from a stored row. *)
Definition current_user : handler (option User.t) :=
  do s <- get_session;
  do d <- get_db;
  match s !! "user_id" with
  | Some uid => if decide (uid = 0%Z) then ret None else ret (get_user d uid)
  | None => ret None
  end.

Definition login_required (func : handler response) : handler response :=
  do s <- get_session;
  match s !! "user_id" with
  | None => flash "Please log in first." "warning";; ret (redirect "login")
  | Some _ => func
  end.

(** ** The dashboard's aggregate query *)

(** The rows of departments JOIN users JOIN appointments, on
    [User.department_id == Department.department_id] and
    [Appointment.faculty_id == User.user_id]. *)
Definition dept_join (d : Db.t) : list (Department.t * User.t * Appointment.t) :=
  dep ← Db.departments d;
  u ← filter (λ u, User.department_id u = Some (DInt (Department.department_id dep)))
             (Db.users d);
  a ← filter (λ a, Appointment.faculty_id a = User.user_id u) (Db.appointments d);
  [(dep, u, a)].

(** One more row for group [k]: its counter goes up, or the group is opened
    with one row. *)
Fixpoint bump (k : string) (groups : list (string * nat)) : list (string * nat) :=
  match groups with
  | [] => [(k, 1)]
  | (k', n) :: rest => if decide (k' = k) then (k', S n) :: rest
                       else (k', n) :: bump k rest
  end.

(** The groups of [GROUP BY] key with their [count]: one pair per distinct
    key, here in order of first occurrence. *)
Definition group_count (keys : list string) : list (string * nat) :=
  foldl (λ groups k, bump k groups) [] keys.

(** The order in which the storage layer delivers the groups: by key, text
    compared byte by byte. *)
Definition key_le (p q : string * nat) : Prop := String.leb p.1 q.1.

Global Instance key_le_dec p q : Decision (key_le p q).
Proof. unfold key_le. apply _. Defined.

Definition dept_counts (d : Db.t) : list (string * nat) :=
  merge_sort key_le
    (group_count ((λ r, Department.department_name r.1.1) <$> dept_join d)).

(** ** Routes *)

Section routes.
Context {P : Platform}.

(** *** Auth *)

Definition register (req : request) (salt : string) : handler response :=
  if decide (method req = "POST") then
    do name <- form_item req "name";
    do email <- form_item req "email";
    do password <- form_item req "password";
    do role <- form_item req "role";
    let department_id := form req !! "department_id" in
    do d <- get_db;
    match user_by_email d email with
    | Some _ =>
        flash "Email already registered." "danger";;
        ret (redirect "register")
    | None =>
        let password_hash := generate_password_hash salt password in
        add_user (λ pk,
          User.mk pk name email role password_hash
            match department_id with
            | Some s => if decide (s = "") then None else Some (integer_affinity s)
            | None => None
            end);;
        flash "Registration successful. Please log in." "success";;
        ret (redirect "login")
    end
  else
    do d <- get_db;
    ret (render_template (register_html (Db.departments d))).

Definition login (req : request) : handler response :=
  if decide (method req = "POST") then
    do email <- form_item req "email";
    do password <- form_item req "password";
    do d <- get_db;
    match user_by_email d email with
    | Some user =>
        if check_password_hash (User.password_hash user) password then
          session_set "user_id" (User.user_id user);;
          flash "Logged in successfully." "success";;
          ret (redirect "dashboard")
        else
          flash "Invalid email or password." "danger";;
          ret (render_template login_html)
    | None =>
        flash "Invalid email or password." "danger";;
        ret (render_template login_html)
    end
  else ret (render_template login_html).

Definition logout : handler response :=
  session_clear;;
  flash "Logged out." "info";;
  ret (redirect "login").

(** *** Dashboard *)

Definition index : handler response :=
  do s <- get_session;
  match s !! "user_id" with
  | Some _ => ret (redirect "dashboard")
  | None => ret (redirect "login")
  end.

Definition dashboard_def : handler response :=
  do user <- current_user;
  do d <- get_db;
  let total_appointments := length (Db.appointments d) in
  do user <- deref user;
  let my_appointments :=
    if decide (User.role user = "student") then
      length (filter (λ a, Appointment.student_id a = User.user_id user)
                     (Db.appointments d))
    else if decide (User.role user = "faculty") then
      length (filter (λ a, Appointment.faculty_id a = User.user_id user)
                     (Db.appointments d))
    else total_appointments in
  let counts := dept_counts d in
  let labels := fst <$> counts in
  let values := snd <$> counts in
  ret (render_template
         (dashboard_html user total_appointments my_appointments labels values)).

Definition dashboard : handler response := login_required dashboard_def.

(** *** Appointments *)

Definition appointments_def : handler response :=
  do user <- current_user;
  do d <- get_db;
  do user <- deref user;
  let appts :=
    if decide (User.role user = "student") then
      filter (λ a, Appointment.student_id a = User.user_id user) (Db.appointments d)
    else if decide (User.role user = "faculty") then
      filter (λ a, Appointment.faculty_id a = User.user_id user) (Db.appointments d)
    else Db.appointments d in
  ret (render_template (appointments_html appts user)).

Definition appointments : handler response := login_required appointments_def.

Definition new_appointment_def (req : request) (now : Z) : handler response :=
  do user <- current_user;
  do user <- deref user;
  if decide (User.role user ≠ "student") then
    flash "Only students can create appointments in this demo." "warning";;
    ret (redirect "appointments")
  else if decide (method req = "POST") then
    do faculty_str <- form_item req "faculty_id";
    do faculty_id <- match int faculty_str with
                     | Some z => ret z
                     | None => raise (uncaught "ValueError")
                     end;
    do appointment_date <- form_item req "appointment_date";
    do start_time <- form_item req "start_time";
    do end_time <- form_item req "end_time";
    do purpose <- form_item req "purpose";
    do appt <- add_appointment (λ pk,
      Appointment.mk pk (User.user_id user) faculty_id appointment_date start_time end_time
        (Some "scheduled") (Some purpose));
    add_notification (λ pk,
      Notification.mk pk (Appointment.appointment_id appt)
        ("New appointment on " +:+ appointment_date +:+ " at " +:+ start_time)
        (Some now) (Some "pending"));;
    flash "Appointment created." "success";;
    ret (redirect "appointments")
  else
    do d <- get_db;
    let faculty_members := filter (λ u, User.role u = "faculty") (Db.users d) in
    ret (render_template (new_appointment_html faculty_members)).

Definition new_appointment (req : request) (now : Z) : handler response :=
  login_required (new_appointment_def req now).

Definition cancel_appointment_def (appointment_id : Z) : handler response :=
  do user <- current_user;
  do appt <- get_or_404 appointment_id;
  do user <- deref user;
  if decide (User.role user = "student"
             ∧ Appointment.student_id appt ≠ User.user_id user) then
    flash "You cannot cancel others' appointments." "danger";;
    ret (redirect "appointments")
  else if decide (User.role user = "faculty"
                  ∧ Appointment.faculty_id appt ≠ User.user_id user) then
    flash "You cannot cancel others' appointments." "danger";;
    ret (redirect "appointments")
  else
    update_status (Appointment.appointment_id appt) "cancelled";;
    flash "Appointment cancelled." "info";;
    ret (redirect "appointments").

Definition cancel_appointment (appointment_id : Z) : handler response :=
  login_required (cancel_appointment_def appointment_id).

(** *** Availability *)

Definition availability_def (req : request) : handler response :=
  do user <- current_user;
  do user <- deref user;
  if decide (User.role user ≠ "faculty") then
    flash "Only faculty can manage availability." "warning";;
    ret (redirect "dashboard")
  else
    (if decide (method req = "POST") then
       do day_of_week <- form_item req "day_of_week";
       do start_time <- form_item req "start_time";
       do end_time <- form_item req "end_time";
       add_availability (λ pk,
         Availability.mk pk (User.user_id user) day_of_week start_time end_time
           (Some true));;
       flash "Availability slot added." "success"
     else ret tt);;
    do d <- get_db;
    let slots := filter (λ s, Availability.faculty_id s = User.user_id user)
                        (Db.availability d) in
    ret (render_template (availability_html slots)).

Definition availability (req : request) : handler response :=
  login_required (availability_def req).

(** *** Departments *)

Definition departments_def (req : request) : handler response :=
  do user <- current_user;
  do user <- deref user;
  if decide (User.role user ≠ "admin") then
    flash "Only admin can manage departments." "warning";;
    ret (redirect "dashboard")
  else
    (if decide (method req = "POST") then
       do name <- form_item req "department_name";
       do building <- form_item req "building";
       do phone <- form_item req "phone";
       add_department (λ pk, Department.mk pk name (Some building) (Some phone));;
       flash "Department added." "success"
     else ret tt);;
    do d <- get_db;
    ret (render_template (departments_html (Db.departments d))).

Definition departments (req : request) : handler response :=
  login_required (departments_def req).

(** *** The [init-db] command *)

(** [db.drop_all(); db.create_all()] and the sample rows; the five salts are
    those drawn for the five sample passwords. *)
Definition init_db (s1 s2 s3 s4 s5 : string) : handler unit :=
  commit Db.empty;;
  do cs <- add_department (λ pk,
    Department.mk pk "Computer Science" (Some "Ahlberg Hall") (Some "316-978-3000"));
  do math <- add_department (λ pk,
    Department.mk pk "Mathematics" (Some "Jabara Hall") (Some "316-978-3160"));
  do ee <- add_department (λ pk,
    Department.mk pk "Electrical Engineering" (Some "Wallace Hall")
      (Some "316-978-3400"));
  let dept x := Some (DInt (Department.department_id x)) in
  add_user (λ pk,
    User.mk pk "Admin User" "admin@university.edu" "admin"
      (generate_password_hash s1 "admin123") (dept cs));;
  add_user (λ pk,
    User.mk pk "Dr. Johnson (Computer Science)" "johnson@wsu.edu" "faculty"
      (generate_password_hash s2 "demo-johnson") (dept cs));;
  add_user (λ pk,
    User.mk pk "Dr. Emily Lee (Mathematics)" "elee@wsu.edu" "faculty"
      (generate_password_hash s3 "demo-lee") (dept math));;
  add_user (λ pk,
    User.mk pk "Dr. Patel (Electrical Engineering)" "patel@wsu.edu" "faculty"
      (generate_password_hash s4 "demo-patel") (dept ee));;
  add_user (λ pk,
    User.mk pk "John Student" "student@university.edu" "student"
      (generate_password_hash s5 "student123") (dept cs));;
  ret tt.

(** ** Runs of the application *)

(** One operation: a view called on some request or the [init-db] command.
    The next request may come from another browser, or after a template has
    shown the flashed messages: [step_client] puts any session and any queue
    in place of the current ones. *)
Inductive step : world → world → Prop :=
| step_register req salt w : step w (run (register req salt) w).2
| step_login req w : step w (run (login req) w).2
| step_logout w : step w (run logout w).2
| step_index w : step w (run index w).2
| step_dashboard w : step w (run dashboard w).2
| step_appointments w : step w (run appointments w).2
| step_new_appointment req now w : step w (run (new_appointment req now) w).2
| step_cancel_appointment appointment_id w :
    step w (run (cancel_appointment appointment_id) w).2
| step_availability req w : step w (run (availability req) w).2
| step_departments req w : step w (run (departments req) w).2
| step_init_db s1 s2 s3 s4 s5 w : step w (init_db s1 s2 s3 s4 s5 w).2
| step_client s msgs w : step w {| db := db w; session := s; flashed := msgs |}.

(** The worlds the application can be in, started on an empty store. *)
Inductive reachable : world → Prop :=
| reachable_init s : reachable {| db := Db.empty; session := s; flashed := [] |}
| reachable_step w w' : reachable w → step w w' → reachable w'.
End routes.

(** A user is logged in when the session names the key of a stored user, as
    [current_user()] resolves it. *)
Definition logged_in (w : world) (u : User.t) : Prop :=
  ∃ uid, session w !! "user_id" = Some uid ∧ uid ≠ 0%Z ∧ get_user (db w) uid = Some u.

(** ** A platform and sample worlds to run the views on *)

Module Sample.
(** Decimal numerals, the common case of what [int] accepts. *)
Definition digit (c : ascii) : option Z :=
  let n := Z.of_nat (nat_of_ascii c) in
  if decide (48 ≤ n ≤ 57)%Z then Some (n - 48)%Z else None.

Fixpoint digits (acc : Z) (s : string) : option Z :=
  match s with
  | EmptyString => Some acc
  | String c rest =>
      match digit c with
      | Some k => digits (10 * acc + k) rest
      | None => None
      end
  end.

Definition decimal (s : string) : option Z :=
  match s with
  | EmptyString => None
  | _ => digits 0 s
  end.

(** The text after the first dollar sign. *)
Fixpoint after_dollar (s : string) : string :=
  match s with
  | EmptyString => EmptyString
  | String c rest => if decide (c = "$"%char) then rest else after_dollar rest
  end.

(** A toy hash, salt and password side by side, good enough to run the
    views. *)
Definition platform : Platform := {|
  generate_password_hash salt password := salt +:+ "$" +:+ password;
  check_password_hash pwhash password := bool_decide (after_dollar pwhash = password);
  int := decimal;
  integer_affinity s := match decimal s with Some z => DInt z | None => DOther s end
|}.

Definition cs : Department.t :=
  Department.mk 1 "Computer Science" (Some "Ahlberg Hall") (Some "316-978-3000").
Definition math : Department.t :=
  Department.mk 2 "Mathematics" (Some "Jabara Hall") (Some "316-978-3160").
Definition ee : Department.t :=
  Department.mk 3 "Electrical Engineering" (Some "Wallace Hall") (Some "316-978-3400").

Definition admin : User.t :=
  User.mk 1 "Admin User" "admin@university.edu" "admin" "a$admin123" (Some (DInt 1)).
Definition johnson : User.t :=
  User.mk 2 "Dr. Johnson (Computer Science)" "johnson@wsu.edu" "faculty"
    "b$demo-johnson" (Some (DInt 1)).
Definition lee : User.t :=
  User.mk 3 "Dr. Emily Lee (Mathematics)" "elee@wsu.edu" "faculty"
    "c$demo-lee" (Some (DInt 2)).
Definition patel : User.t :=
  User.mk 4 "Dr. Patel (Electrical Engineering)" "patel@wsu.edu" "faculty"
    "d$demo-patel" (Some (DInt 3)).
Definition student : User.t :=
  User.mk 5 "John Student" "student@university.edu" "student"
    "e$student123" (Some (DInt 1)).
Definition other_student : User.t :=
  User.mk 6 "Jane Student" "jane@university.edu" "student" "f$jane123" None.
Definition registrar : User.t :=
  User.mk 7 "Registrar" "registrar@university.edu" "staff" "g$reg123" None.

Definition appt1 : Appointment.t :=
  Appointment.mk 1 5 2 "2024-03-01" "09:00" "10:00" (Some "scheduled") (Some "advising").
Definition appt2 : Appointment.t :=
  Appointment.mk 2 6 3 "2024-03-02" "11:00" "12:00" (Some "cancelled") (Some "grades").
Definition appt3 : Appointment.t :=
  Appointment.mk 3 5 3 "2024-03-04" "14:00" "15:00" (Some "completed") None.

Definition slot1 : Availability.t :=
  Availability.mk 1 2 "Mon" "09:00" "11:00" (Some true).

Definition store : Db.t :=
  Db.mk [cs; math; ee]
        [admin; johnson; lee; patel; student; other_student; registrar]
        [slot1]
        [appt1; appt2; appt3]
        [Notification.mk 1 1 "New appointment on 2024-03-01 at 09:00" (Some 0%Z)
           (Some "pending")].

(** The sample store with user [uid] logged in. *)
Definition world_of (uid : Z) : world :=
  {| db := store; session := {[ "user_id" := uid ]}; flashed := [] |}.

Definition anonymous : world :=
  {| db := store; session := ∅; flashed := [] |}.

Definition post (fields : list (string * string)) : request :=
  {| method := "POST"; form := list_to_map fields |}.

(** A short history from an empty store: the sample data, a booking by the
    sample student, a slot declared by Dr. Johnson. *)
Definition history : world :=
  let w0 := {| db := Db.empty; session := ∅; flashed := [] |} in
  let w1 := (init_db (P:=platform) "a" "b" "c" "d" "e" w0).2 in
  let w2 := (run (login (P:=platform)
                    (post [("email", "student@university.edu");
                           ("password", "student123")])) w1).2 in
  let w3 := (run (new_appointment (P:=platform)
                    (post [("faculty_id", "2"); ("appointment_date", "2024-03-01");
                           ("start_time", "09:00"); ("end_time", "10:00");
                           ("purpose", "thesis")]) 0) w2).2 in
  let w4 := (run (login (P:=platform)
                    (post [("email", "johnson@wsu.edu");
                           ("password", "demo-johnson")])) w3).2 in
  (run (availability
          (post [("day_of_week", "Mon"); ("start_time", "09:00");
                 ("end_time", "11:00")])) w4).2.
End Sample.

(** The changes a single operation can make to the store. *)
Inductive db_effect (d : Db.t) : Db.t → Prop :=
| effect_none : db_effect d d
| effect_department r :
    Department.department_id r ∉ Department.department_id <$> Db.departments d →
    Department.department_name r ∉ Department.department_name <$> Db.departments d →
    db_effect d (Db.with_departments (Db.departments d ++ [r]) d)
| effect_user r :
    User.user_id r ∉ User.user_id <$> Db.users d →
    User.email r ∉ User.email <$> Db.users d →
    db_effect d (Db.with_users (Db.users d ++ [r]) d)
| effect_availability r :
    Availability.availability_id r ∉ Availability.availability_id <$> Db.availability d →
    db_effect d (Db.with_availability (Db.availability d ++ [r]) d)
| effect_appointment a n :
    Appointment.appointment_id a ∉ Appointment.appointment_id <$> Db.appointments d →
    Appointment.status a = Some "scheduled" →
    Notification.notification_id n ∉ Notification.notification_id <$> Db.notifications d →
    db_effect d (Db.with_notifications (Db.notifications d ++ [n])
                   (Db.with_appointments (Db.appointments d ++ [a]) d))
| effect_cancel appointment_id :
    db_effect d
      (Db.with_appointments (set_status_of appointment_id "cancelled" (Db.appointments d)) d)
| effect_reset d' :
    db_consistent d' → Db.appointments d' = [] → db_effect d d'.

(** ** Requests as the routes deliver them *)

(** A request that routing has matched to a view, with the arguments the view
    is called on; [salt] and [now] are what the platform draws for it. *)
Inductive call :=
| call_register (req : request) (salt : string)
| call_login (req : request)
| call_logout
| call_index
| call_dashboard
| call_appointments
| call_new_appointment (req : request) (now : Z)
| call_cancel_appointment (appointment_id : Z)
| call_availability (req : request)
| call_departments (req : request).

Definition view_of `{P : Platform} (c : call) : handler response :=
  match c with
  | call_register req salt => register req salt
  | call_login req => login req
  | call_logout => logout
  | call_index => index
  | call_dashboard => dashboard
  | call_appointments => appointments
  | call_new_appointment req now => new_appointment req now
  | call_cancel_appointment appointment_id => cancel_appointment appointment_id
  | call_availability req => availability req
  | call_departments req => departments req
  end.

(** The views under [@login_required]. *)
Definition protected (c : call) : bool :=
  match c with
  | call_dashboard | call_appointments | call_new_appointment _ _
  | call_cancel_appointment _ | call_availability _ | call_departments _ => true
  | _ => false
  end.

(** The calls whose view writes to a table: the four forms, when posted, and
    the cancel link. *)
Definition may_write (c : call) : bool :=
  match c with
  | call_register req _ | call_new_appointment req _
  | call_availability req | call_departments req => bool_decide (method req = "POST")
  | call_cancel_appointment _ => true
  | _ => false
  end.

(** Responses that are errors rather than pages or redirects. *)
Definition is_error (r : response) : bool :=
  match r with
  | http_error _ | uncaught _ => true
  | _ => false
  end.

(** The department column of a new user, from the optional form field. *)
Definition department_of_form `{P : Platform} (req : request) : option dbval :=
  match form req !! "department_id" with
  | Some s => if decide (s = "") then None else Some (integer_affinity s)
  | None => None
  end.

(** What a view can do to the store, with the facts the view has checked by
    then. *)
Inductive view_effect `{P : Platform} (w : world) : Db.t → Prop :=
| view_reads : view_effect w (db w)
| view_adds_user name email role salt password dept :
    email ∉ User.email <$> Db.users (db w) →
    view_effect w
      (Db.with_users
         (Db.users (db w)
            ++ [User.mk (next_rowid (User.user_id <$> Db.users (db w))) name email role
                  (generate_password_hash salt password) dept])
         (db w))
| view_adds_department u name building phone :
    logged_in w u → User.role u = "admin" →
    name ∉ Department.department_name <$> Db.departments (db w) →
    view_effect w
      (Db.with_departments
         (Db.departments (db w)
            ++ [Department.mk
                  (next_rowid (Department.department_id <$> Db.departments (db w)))
                  name (Some building) (Some phone)])
         (db w))
| view_adds_availability u day st en :
    logged_in w u → User.role u = "faculty" →
    view_effect w
      (Db.with_availability
         (Db.availability (db w)
            ++ [Availability.mk
                  (next_rowid (Availability.availability_id <$> Db.availability (db w)))
                  (User.user_id u) day st en (Some true)])
         (db w))
| view_adds_appointment u faculty_id date st en purpose now :
    logged_in w u → User.role u = "student" →
    let k := next_rowid (Appointment.appointment_id <$> Db.appointments (db w)) in
    view_effect w
      (Db.with_notifications
         (Db.notifications (db w)
            ++ [Notification.mk
                  (next_rowid (Notification.notification_id <$> Db.notifications (db w)))
                  k ("New appointment on " +:+ date +:+ " at " +:+ st)
                  (Some now) (Some "pending")])
         (Db.with_appointments
            (Db.appointments (db w)
               ++ [Appointment.mk k (User.user_id u) faculty_id date st en
                     (Some "scheduled") (Some purpose)])
            (db w)))
| view_cancels u a :
    logged_in w u → a ∈ Db.appointments (db w) →
    ¬ (User.role u = "student" ∧ Appointment.student_id a ≠ User.user_id u) →
    ¬ (User.role u = "faculty" ∧ Appointment.faculty_id a ≠ User.user_id u) →
    view_effect w
      (Db.with_appointments
         (set_status_of (Appointment.appointment_id a) "cancelled"
            (Db.appointments (db w)))
         (db w)).

(** Facts about the rows that hold in every store the application builds. *)
Record store_invariant (d : Db.t) : Prop := {
  department_keys_positive :
    ∀ k, k ∈ Department.department_id <$> Db.departments d → (1 ≤ k)%Z;
  user_keys_positive : ∀ k, k ∈ User.user_id <$> Db.users d → (1 ≤ k)%Z;
  notifications_mirror_appointments :
    Notification.appointment_id <$> Db.notifications d
    = Appointment.appointment_id <$> Db.appointments d;
  notifications_pending :
    ∀ n, n ∈ Db.notifications d → Notification.sent_status n = Some "pending";
  appointments_of_students :
    ∀ a, a ∈ Db.appointments d →
         ∃ u, u ∈ Db.users d ∧ User.user_id u = Appointment.student_id a
              ∧ User.role u = "student";
  availability_of_faculty :
    ∀ s, s ∈ Db.availability d →
         Availability.is_available s = Some true
         ∧ ∃ u, u ∈ Db.users d ∧ User.user_id u = Availability.faculty_id s
                ∧ User.role u = "faculty"
}.

(** ** Facts about the storage layer *)

Lemma max_rowid_bound ids m :
  max_rowid ids = Some m → ∀ i, i ∈ ids → (i ≤ m)%Z.
Proof.
  revert m. induction ids as [|j ids IH]; intros m Hm i Hi.
  - inversion Hi.
  - simpl in Hm. destruct (max_rowid ids) as [m'|] eqn:E.
    + injection Hm as <-. apply elem_of_cons in Hi as [->|Hi]; [lia|].
      specialize (IH m' eq_refl i Hi). lia.
    + injection Hm as <-. apply elem_of_cons in Hi as [->|Hi]; [lia|].
      destruct ids; [inversion Hi|].
      simpl in E. destruct (max_rowid ids); discriminate.
Qed.

Lemma next_rowid_fresh ids : next_rowid ids ∉ ids.
Proof.
  unfold next_rowid. destruct (max_rowid ids) as [m|] eqn:E.
  - intros Hin. pose proof (max_rowid_bound _ _ E _ Hin). lia.
  - destruct ids; [apply not_elem_of_nil|].
    simpl in E. destruct (max_rowid ids); discriminate.
Qed.

Lemma NoDup_fmap_eq {A B} (f : A → B) (l : list A) x y :
  NoDup (f <$> l) → x ∈ l → y ∈ l → f x = f y → x = y.
Proof.
  induction l as [|z l IH]; simpl; intros Hnd Hx Hy Hf; [inversion Hx|].
  apply NoDup_cons in Hnd as [Hz Hnd].
  apply elem_of_cons in Hx as [->|Hx]; apply elem_of_cons in Hy as [->|Hy]; auto.
  - exfalso. apply Hz. rewrite Hf. by apply list_elem_of_fmap_2.
  - exfalso. apply Hz. rewrite <- Hf. by apply list_elem_of_fmap_2.
Qed.

Lemma head_filter_elem {A} (P : A → Prop) `{!∀ x, Decision (P x)} (l : list A) x :
  head (filter P l) = Some x → x ∈ l ∧ P x.
Proof.
  intros Hh. apply head_Some_elem_of in Hh. apply list_elem_of_filter in Hh. tauto.
Qed.

Lemma head_filter_None {A} (P : A → Prop) `{!∀ x, Decision (P x)} (l : list A) :
  head (filter P l) = None ↔ ∀ x, x ∈ l → ¬ P x.
Proof.
  rewrite head_None. split.
  - intros E x Hx HP. assert (x ∈ filter P l) as Hin by by apply list_elem_of_filter.
    rewrite E in Hin. inversion Hin.
  - intros Hl. destruct (filter P l) as [|x k] eqn:E; [done|]. exfalso.
    assert (x ∈ filter P l) as Hin by (rewrite E; left).
    apply list_elem_of_filter in Hin as [HP Hx]. by apply (Hl x).
Qed.

Lemma get_appointment_key d appointment_id a :
  get_appointment d appointment_id = Some a →
  a ∈ Db.appointments d ∧ Appointment.appointment_id a = appointment_id.
Proof.
  unfold get_appointment. intros Hh.
  by apply (head_filter_elem (λ a, Appointment.appointment_id a = appointment_id)) in Hh.
Qed.

(** Rewriting the status of the row with key [k] commutes with the lookup by
    key. *)
Lemma head_filter_set_status k s k' (l : list Appointment.t) :
  head (filter (λ a, Appointment.appointment_id a = k') (set_status_of k s l))
  = (λ a, if decide (Appointment.appointment_id a = k)
          then Appointment.set_status s a else a)
    <$> head (filter (λ a, Appointment.appointment_id a = k') l).
Proof.
  unfold set_status_of. induction l as [|a l IH]; [done|].
  rewrite fmap_cons, !filter_cons.
  destruct (decide (Appointment.appointment_id a = k)) as [E|E]; simpl.
  - destruct (decide (Appointment.appointment_id a = k')); simpl; [|done].
    by rewrite decide_True.
  - destruct (decide (Appointment.appointment_id a = k')); simpl; [|done].
    by rewrite decide_False.
Qed.

Lemma get_appointment_set_status d k s a :
  get_appointment d k = Some a →
  get_appointment (Db.with_appointments (set_status_of k s (Db.appointments d)) d) k
  = Some (Appointment.set_status s a).
Proof.
  intros Ha. pose proof (get_appointment_key _ _ _ Ha) as [_ Hk].
  unfold get_appointment in *. simpl. rewrite head_filter_set_status, Ha. simpl.
  by rewrite decide_True.
Qed.

Lemma set_status_of_twice k s (l : list Appointment.t) :
  set_status_of k s (set_status_of k s l) = set_status_of k s l.
Proof.
  unfold set_status_of. rewrite <- list_fmap_compose. apply list_fmap_ext.
  intros _ a _. simpl.
  destruct (decide (Appointment.appointment_id a = k)) as [E|E]; simpl.
  - by rewrite decide_True.
  - by rewrite decide_False.
Qed.

(** ** Facts about the helper functions *)

Lemma current_user_logged_in w u :
  logged_in w u → current_user w = (inl (Some u), w).
Proof.
  intros (uid & Hs & Hnz & Hu). unfold current_user, bind, get_session, get_db.
  rewrite Hs. destruct (decide (uid = 0%Z)); [done|]. unfold ret. by rewrite Hu.
Qed.

Lemma login_required_logged_in w u func :
  logged_in w u → login_required func w = func w.
Proof.
  intros (uid & Hs & _). unfold login_required, bind, get_session. by rewrite Hs.
Qed.

(** Unfolds a view, for a logged-in user, down to its first branch. *)
Ltac enter_view Hu :=
  unfold run, dashboard, appointments, new_appointment, cancel_appointment,
    availability, departments;
  rewrite (login_required_logged_in _ _ _ Hu);
  unfold dashboard_def, appointments_def, new_appointment_def,
    cancel_appointment_def, availability_def, departments_def;
  unfold bind at 1; rewrite (current_user_logged_in _ _ Hu).

Ltac unfold_handler :=
  unfold deref, form_item, get_or_404, add_department, add_user, add_availability,
    add_appointment, add_notification, update_status;
  unfold bind, ret, raise, get_db, get_session, commit, flash, session_set,
    session_clear; simpl.

(** Splits the goal on the innermost test of the view under analysis. *)
Ltac branch :=
  match goal with
  | |- context [match ?x with _ => _ end] =>
      lazymatch x with
      | context [match _ with _ => _ end] => fail
      | _ => destruct x eqn:?; simpl
      end
  end.

Ltac unfold_view :=
  unfold run, register, login, logout, index, dashboard, appointments,
    new_appointment, cancel_appointment, availability, departments,
    login_required, dashboard_def, appointments_def, new_appointment_def,
    cancel_appointment_def, availability_def, departments_def, current_user;
  unfold_handler.

(** ** The views on the paths the specification describes *)

Section views.
(** A caller who passes both ownership checks gets the appointment
    cancelled, whatever its status was. *)
Lemma cancel_appointment_authorized w u a appointment_id :
  logged_in w u →
  get_appointment (db w) appointment_id = Some a →
  ¬ (User.role u = "student" ∧ Appointment.student_id a ≠ User.user_id u) →
  ¬ (User.role u = "faculty" ∧ Appointment.faculty_id a ≠ User.user_id u) →
  run (cancel_appointment appointment_id) w =
    (redirect "appointments",
     {| db := Db.with_appointments
                (set_status_of appointment_id "cancelled" (Db.appointments (db w)))
                (db w);
        session := session w;
        flashed := flashed w ++ [("Appointment cancelled.", "info")] |}).
Proof.
  intros Hu Ha Hs Hf. pose proof (get_appointment_key _ _ _ Ha) as [_ Hk].
  enter_view Hu. unfold_handler. rewrite Ha; simpl.
  rewrite decide_False by done. rewrite decide_False by done. simpl.
  by rewrite Hk.
Qed.

Lemma cancel_appointment_forbidden w u a appointment_id :
  logged_in w u →
  get_appointment (db w) appointment_id = Some a →
  (User.role u = "student" ∧ Appointment.student_id a ≠ User.user_id u)
  ∨ (User.role u = "faculty" ∧ Appointment.faculty_id a ≠ User.user_id u) →
  run (cancel_appointment appointment_id) w =
    (redirect "appointments",
     {| db := db w;
        session := session w;
        flashed := flashed w ++ [("You cannot cancel others' appointments.", "danger")] |}).
Proof.
  intros Hu Ha Hown. enter_view Hu. unfold_handler. rewrite Ha; simpl.
  destruct Hown as [Hs|Hf].
  - by rewrite decide_True.
  - destruct (decide (User.role u = "student"
                      ∧ Appointment.student_id a ≠ User.user_id u)); [done|].
    by rewrite decide_True.
Qed.

(** What [dashboard] renders for a logged-in user. *)
Lemma dashboard_logged_in w u :
  logged_in w u →
  run dashboard w =
    (render_template
       (dashboard_html u
          (length (Db.appointments (db w)))
          (if decide (User.role u = "student") then
             length (filter (λ a, Appointment.student_id a = User.user_id u)
                            (Db.appointments (db w)))
           else if decide (User.role u = "faculty") then
             length (filter (λ a, Appointment.faculty_id a = User.user_id u)
                            (Db.appointments (db w)))
           else length (Db.appointments (db w)))
          (fst <$> dept_counts (db w))
          (snd <$> dept_counts (db w))),
     w).
Proof. intros Hu. enter_view Hu. by unfold_handler. Qed.

(** What [appointments] renders for a logged-in user. *)
Lemma appointments_logged_in w u :
  logged_in w u →
  run appointments w =
    (render_template
       (appointments_html
          (if decide (User.role u = "student") then
             filter (λ a, Appointment.student_id a = User.user_id u)
                    (Db.appointments (db w))
           else if decide (User.role u = "faculty") then
             filter (λ a, Appointment.faculty_id a = User.user_id u)
                    (Db.appointments (db w))
           else Db.appointments (db w))
          u),
     w).
Proof. intros Hu. enter_view Hu. by unfold_handler. Qed.
End views.

Lemma logged_in_same w w' u :
  session w' = session w → Db.users (db w') = Db.users (db w) →
  logged_in w u → logged_in w' u.
Proof.
  intros Hs Hd (uid & H1 & H2 & H3). exists uid.
  unfold get_user in *. by rewrite Hs, Hd.
Qed.

(** Proves that user [uid] of the sample store is logged in. *)
Ltac sample_user uid :=
  exists uid; split; [vm_compute; reflexivity | split; [lia | vm_compute; reflexivity]].

Example init_db_sample :
  db (init_db (P:=Sample.platform) "a" "b" "c" "d" "e" Sample.anonymous).2
  = Db.mk [Sample.cs; Sample.math; Sample.ee]
          [Sample.admin; Sample.johnson; Sample.lee; Sample.patel; Sample.student]
          [] [] [].
Proof. vm_compute; reflexivity. Qed.

(** ** Creating an appointment *)

Lemma snoc_neq {A} (l : list A) x : l ≠ l ++ [x].
Proof.
  intros E. apply (f_equal length) in E. rewrite length_app in E. simpl in E. lia.
Qed.

(** A call by a logged-in user that ends with the success message was a POST
    by a student whose form held all five fields, the faculty id one that
    [int] reads as an integer of 64 bits. *)
Lemma new_appointment_success_form `{P : Platform} w u req now :
  logged_in w u →
  flashed (run (new_appointment req now) w).2
    = flashed w ++ [("Appointment created.", "success")] →
  User.role u = "student" ∧ method req = "POST"
  ∧ ∃ fs F date st en purpose,
      form req !! "faculty_id" = Some fs ∧ int fs = Some F ∧ fits_int64 F
      ∧ form req !! "appointment_date" = Some date
      ∧ form req !! "start_time" = Some st
      ∧ form req !! "end_time" = Some en
      ∧ form req !! "purpose" = Some purpose.
Proof.
  intros Hu. enter_view Hu. unfold_handler.
  repeat branch; intros E.
  all: try (exfalso; apply (snoc_neq _ _ E)).
  all: try (apply app_inv_head in E; discriminate E).
  split_and!; [by apply dec_stable | done |].
  by eexists _, _, _, _, _, _.
Qed.

(** X26. For a logged-in student posting all five fields, a faculty id that
    [int] reads but that does not fit 64 bits stops the view at the first
    commit with an uncaught [OverflowError]; nothing is written, no
    appointment and no notification. *)
Theorem new_appointment_overflow `{P : Platform}
    w u req now fs F date st en purpose :
  logged_in w u →
  User.role u = "student" →
  method req = "POST" →
  form req !! "faculty_id" = Some fs →
  int fs = Some F →
  ¬ fits_int64 F →
  form req !! "appointment_date" = Some date →
  form req !! "start_time" = Some st →
  form req !! "end_time" = Some en →
  form req !! "purpose" = Some purpose →
  run (new_appointment req now) w = (uncaught "OverflowError", w).
Proof.
  intros Hu Hrole Hm Hf HF Hbig Hd Hs He Hp.
  enter_view Hu. unfold_handler.
  rewrite Hrole, Hm; simpl. rewrite Hf; simpl. rewrite HF; simpl.
  rewrite Hd; simpl. rewrite Hs; simpl. rewrite He; simpl. rewrite Hp; simpl.
  by rewrite decide_False.
Qed.

Lemma new_appointment_overflow_witness :
  run (new_appointment (P:=Sample.platform)
         (Sample.post [("faculty_id", "9223372036854775808");
                       ("appointment_date", "2024-03-01"); ("start_time", "09:00");
                       ("end_time", "10:00"); ("purpose", "thesis")]) 0)
      (Sample.world_of 5)
  = (uncaught "OverflowError", Sample.world_of 5).
Proof.
  apply (new_appointment_overflow (P:=Sample.platform) (Sample.world_of 5)
           Sample.student _ 0 "9223372036854775808" (2 ^ 63)
           "2024-03-01" "09:00" "10:00" "thesis").
  - sample_user 5%Z.
  - reflexivity.
  - reflexivity.
  - vm_compute; reflexivity.
  - vm_compute; reflexivity.
  - unfold fits_int64; lia.
  - vm_compute; reflexivity.
  - vm_compute; reflexivity.
  - vm_compute; reflexivity.
  - vm_compute; reflexivity.
Defined.

(** C1. For a logged-in student, a POST to [new_appointment] whose form holds
    a faculty id that [int] reads as [F], an integer of 64 bits (the call
    cannot succeed with any other), a date, a start time, an end time and a
    purpose appends exactly one appointment (that student, [F], those
    fields, status "scheduled") and exactly one notification (referring to the
    new appointment's key, sent status "pending") and changes nothing else in
    the store; both keys are new. *)
Theorem new_appointment_adds_rows `{P : Platform}
    w u req now fs F date st en purpose :
  logged_in w u →
  User.role u = "student" →
  method req = "POST" →
  form req !! "faculty_id" = Some fs →
  int fs = Some F →
  fits_int64 F →
  form req !! "appointment_date" = Some date →
  form req !! "start_time" = Some st →
  form req !! "end_time" = Some en →
  form req !! "purpose" = Some purpose →
  let d := db w in
  let appt :=
    Appointment.mk (next_rowid (Appointment.appointment_id <$> Db.appointments d))
      (User.user_id u) F date st en (Some "scheduled") (Some purpose) in
  let notif :=
    Notification.mk (next_rowid (Notification.notification_id <$> Db.notifications d))
      (Appointment.appointment_id appt)
      ("New appointment on " +:+ date +:+ " at " +:+ st) (Some now) (Some "pending") in
  run (new_appointment req now) w =
    (redirect "appointments",
     {| db := Db.mk (Db.departments d) (Db.users d) (Db.availability d)
                    (Db.appointments d ++ [appt]) (Db.notifications d ++ [notif]);
        session := session w;
        flashed := flashed w ++ [("Appointment created.", "success")] |})
  ∧ (Appointment.appointment_id appt
       ∉ Appointment.appointment_id <$> Db.appointments d)
  ∧ (Notification.notification_id notif
       ∉ Notification.notification_id <$> Db.notifications d).
Proof.
  intros Hu Hrole Hm Hf HF Hfit Hd Hs He Hp d appt notif.
  split; [|split; apply next_rowid_fresh].
  enter_view Hu. unfold_handler.
  rewrite Hrole, Hm; simpl. rewrite Hf; simpl. rewrite HF; simpl.
  rewrite Hd; simpl. rewrite Hs; simpl. rewrite He; simpl. rewrite Hp; simpl.
  by rewrite decide_True.
Qed.

Lemma new_appointment_adds_rows_witness :
  let req := Sample.post [("faculty_id", "2"); ("appointment_date", "2024-03-01");
                          ("start_time", "09:00"); ("end_time", "10:00");
                          ("purpose", "thesis")] in
  let w' := (run (new_appointment (P:=Sample.platform) req 1709283600) (Sample.world_of 5)).2 in
  Db.appointments (db w') =
    Db.appointments Sample.store
      ++ [Appointment.mk 4 5 2 "2024-03-01" "09:00" "10:00" (Some "scheduled")
            (Some "thesis")]
  ∧ Db.notifications (db w') =
    Db.notifications Sample.store
      ++ [Notification.mk 2 4 "New appointment on 2024-03-01 at 09:00"
            (Some 1709283600%Z) (Some "pending")].
Proof.
  intros req w'.
  destruct (new_appointment_adds_rows (P:=Sample.platform) (Sample.world_of 5)
              Sample.student req 1709283600 "2" 2 "2024-03-01" "09:00" "10:00" "thesis")
    as (E & _ & _).
  - sample_user 5%Z.
  - reflexivity.
  - reflexivity.
  - vm_compute; reflexivity.
  - vm_compute; reflexivity.
  - unfold fits_int64; lia.
  - vm_compute; reflexivity.
  - vm_compute; reflexivity.
  - vm_compute; reflexivity.
  - vm_compute; reflexivity.
  - unfold w'. rewrite E. split; vm_compute; reflexivity.
Defined.

(** ** Cancelling an appointment *)

(** C2. For a logged-in user and an existing appointment: a student who is not
    the appointment's student, or a faculty member who is not its faculty,
    gets the ownership refusal and the store is left as it was; an admin's
    call always goes through and leaves the appointment cancelled. *)
Theorem cancel_appointment_ownership w u a appointment_id :
  logged_in w u →
  get_appointment (db w) appointment_id = Some a →
  ((User.role u = "student" ∧ Appointment.student_id a ≠ User.user_id u)
   ∨ (User.role u = "faculty" ∧ Appointment.faculty_id a ≠ User.user_id u) →
   run (cancel_appointment appointment_id) w =
     (redirect "appointments",
      {| db := db w;
         session := session w;
         flashed := flashed w
                      ++ [("You cannot cancel others' appointments.", "danger")] |}))
  ∧ (User.role u = "admin" →
     let r := run (cancel_appointment appointment_id) w in
     r.1 = redirect "appointments"
     ∧ flashed r.2 = flashed w ++ [("Appointment cancelled.", "info")]
     ∧ get_appointment (db r.2) appointment_id
       = Some (Appointment.set_status "cancelled" a)).
Proof.
  intros Hu Ha. split.
  - by apply cancel_appointment_forbidden.
  - intros Hadmin r. unfold r.
    rewrite (cancel_appointment_authorized w u a) by (try done; rewrite Hadmin; by intros []).
    simpl. split_and!; [done..|].
    by apply get_appointment_set_status.
Qed.

Lemma cancel_appointment_ownership_witness :
  run (cancel_appointment 2) (Sample.world_of 2) =
    (redirect "appointments",
     {| db := Sample.store;
        session := {[ "user_id" := 2%Z ]};
        flashed := [("You cannot cancel others' appointments.", "danger")] |})
  ∧ get_appointment
      (db (run (cancel_appointment 2) (Sample.world_of 1)).2) 2
    = Some (Appointment.set_status "cancelled" Sample.appt2).
Proof.
  split.
  - apply (cancel_appointment_ownership (Sample.world_of 2)
             Sample.johnson Sample.appt2 2).
    + sample_user 2%Z.
    + vm_compute; reflexivity.
    + right. split; [reflexivity | vm_compute; discriminate].
  - apply (cancel_appointment_ownership (Sample.world_of 1)
             Sample.admin Sample.appt2 2).
    + sample_user 1%Z.
    + vm_compute; reflexivity.
    + reflexivity.
Defined.

(** C10. For an existing appointment and a caller who passes the ownership
    checks, [cancel_appointment] leaves the appointment with status
    "cancelled" whatever its status was, and a second call answers as the
    first did and leaves the store and the session as the first call left
    them. *)
Theorem cancel_appointment_idempotent w u a appointment_id :
  logged_in w u →
  get_appointment (db w) appointment_id = Some a →
  ¬ (User.role u = "student" ∧ Appointment.student_id a ≠ User.user_id u) →
  ¬ (User.role u = "faculty" ∧ Appointment.faculty_id a ≠ User.user_id u) →
  let once := run (cancel_appointment appointment_id) w in
  let twice := run (cancel_appointment appointment_id) once.2 in
  get_appointment (db once.2) appointment_id
    = Some (Appointment.mk (Appointment.appointment_id a) (Appointment.student_id a)
              (Appointment.faculty_id a) (Appointment.appointment_date a)
              (Appointment.start_time a) (Appointment.end_time a)
              (Some "cancelled") (Appointment.purpose a))
  ∧ Appointment.status <$> get_appointment (db once.2) appointment_id
    = Some (Some "cancelled")
  ∧ Appointment.status <$> get_appointment (db twice.2) appointment_id
    = Some (Some "cancelled")
  ∧ twice.1 = once.1
  ∧ db twice.2 = db once.2
  ∧ session twice.2 = session once.2.
Proof.
  intros Hu Ha Hs Hf once twice.
  cut (get_appointment (db once.2) appointment_id
         = Some (Appointment.set_status "cancelled" a)
       ∧ twice.1 = once.1 ∧ db twice.2 = db once.2
       ∧ session twice.2 = session once.2).
  { intros (H1 & H2 & H3 & H4). rewrite H3, H1. by split_and!. }
  pose proof (cancel_appointment_authorized w u a _ Hu Ha Hs Hf) as E1.
  pose proof (get_appointment_set_status _ _ "cancelled" _ Ha) as Ha'.
  assert (logged_in once.2 u) as Hu'.
  { unfold once. rewrite E1. by apply (logged_in_same w). }
  assert (get_appointment (db once.2) appointment_id
          = Some (Appointment.set_status "cancelled" a)) as Ha1.
  { unfold once. by rewrite E1. }
  pose proof (cancel_appointment_authorized once.2 u _ _ Hu' Ha1 Hs Hf) as E2.
  fold twice in E2. split; [done|].
  rewrite E2. unfold once. rewrite E1. simpl. split_and!; [done| |done].
  unfold Db.with_appointments; simpl. by rewrite set_status_of_twice.
Qed.

Lemma cancel_appointment_idempotent_witness :
  let once := run (cancel_appointment 3) (Sample.world_of 1) in
  let twice := run (cancel_appointment 3) once.2 in
  Appointment.status Sample.appt3 = Some "completed"
  ∧ get_appointment (db once.2) 3
    = Some (Appointment.mk 3 5 3 "2024-03-04" "14:00" "15:00" (Some "cancelled") None)
  ∧ Appointment.status <$> get_appointment (db once.2) 3 = Some (Some "cancelled")
  ∧ Appointment.status <$> get_appointment (db twice.2) 3 = Some (Some "cancelled")
  ∧ twice.1 = once.1
  ∧ db twice.2 = db once.2
  ∧ session twice.2 = session once.2.
Proof.
  split; [reflexivity|].
  apply (cancel_appointment_idempotent (Sample.world_of 1)
           Sample.admin Sample.appt3 3).
  - sample_user 1%Z.
  - vm_compute; reflexivity.
  - intros [E _]. vm_compute in E. discriminate.
  - intros [E _]. vm_compute in E. discriminate.
Defined.

(** ** Registration and login *)

(** C4. A POST to [register] with name, email, password and role, whose email
    is the email of a stored user, gets the duplicate-email refusal, and the
    store (so the users table, row for row) is what it was. *)
Theorem register_duplicate_email `{P : Platform}
    w req salt name email password role u :
  method req = "POST" →
  form req !! "name" = Some name →
  form req !! "email" = Some email →
  form req !! "password" = Some password →
  form req !! "role" = Some role →
  u ∈ Db.users (db w) →
  User.email u = email →
  run (register req salt) w =
    (redirect "register",
     {| db := db w;
        session := session w;
        flashed := flashed w ++ [("Email already registered.", "danger")] |}).
Proof.
  intros Hm Hn He Hp Hr Hu Hue.
  unfold run, register. rewrite Hm; simpl. unfold_handler.
  rewrite Hn; simpl. rewrite He; simpl. rewrite Hp; simpl. rewrite Hr; simpl.
  destruct (user_by_email (db w) email) as [u'|] eqn:E; [done|].
  exfalso. unfold user_by_email in E.
  by apply (proj1 (head_filter_None (λ u, User.email u = email) _) E u).
Qed.

Lemma register_duplicate_email_witness :
  run (register (P:=Sample.platform)
         (Sample.post [("name", "E. Lee"); ("email", "elee@wsu.edu");
                       ("password", "secret"); ("role", "student")])
         "salt")
      Sample.anonymous =
    (redirect "register",
     {| db := Sample.store;
        session := ∅;
        flashed := [("Email already registered.", "danger")] |}).
Proof.
  apply (register_duplicate_email (P:=Sample.platform) Sample.anonymous _ "salt"
           "E. Lee" "elee@wsu.edu" "secret" "student" Sample.lee).
  - reflexivity.
  - vm_compute; reflexivity.
  - vm_compute; reflexivity.
  - vm_compute; reflexivity.
  - vm_compute; reflexivity.
  - vm_compute. do 2 right. left.
  - reflexivity.
Defined.

(** C5. A POST to [login] with an email and a password: when no stored user
    has the email, or the user with that email fails the hash check, the
    answer is the invalid-credentials page and the session is what it was (in
    particular "user_id" stays absent if it was); when the user with that
    email passes the hash check the session gets that user's key under
    "user_id"; and nothing else can happen. *)
Theorem login_binds_session_on_match_only `{P : Platform} w req email password :
  method req = "POST" →
  form req !! "email" = Some email →
  form req !! "password" = Some password →
  let failure :=
    (render_template login_html,
     {| db := db w;
        session := session w;
        flashed := flashed w ++ [("Invalid email or password.", "danger")] |}) in
  let success u :=
    (redirect "dashboard",
     {| db := db w;
        session := <["user_id" := User.user_id u]> (session w);
        flashed := flashed w ++ [("Logged in successfully.", "success")] |}) in
  ((∀ u, u ∈ Db.users (db w) → User.email u ≠ email) →
   run (login req) w = failure)
  ∧ (∀ u, NoDup (User.email <$> Db.users (db w)) →
          u ∈ Db.users (db w) → User.email u = email →
          check_password_hash (User.password_hash u) password = false →
          run (login req) w = failure)
  ∧ (∀ u, NoDup (User.email <$> Db.users (db w)) →
          u ∈ Db.users (db w) → User.email u = email →
          check_password_hash (User.password_hash u) password = true →
          run (login req) w = success u)
  ∧ (run (login req) w = failure
     ∨ ∃ u, u ∈ Db.users (db w) ∧ User.email u = email
            ∧ check_password_hash (User.password_hash u) password = true
            ∧ run (login req) w = success u).
Proof.
  intros Hm He Hp failure success.
  assert (run (login req) w =
          match user_by_email (db w) email with
          | Some u => if check_password_hash (User.password_hash u) password
                      then success u else failure
          | None => failure
          end) as Hrun.
  { unfold run, login. rewrite Hm; simpl. unfold_handler.
    rewrite He; simpl. rewrite Hp; simpl.
    destruct (user_by_email (db w) email) as [u|]; [|done].
    by destruct (check_password_hash (User.password_hash u) password). }
  assert (∀ u, NoDup (User.email <$> Db.users (db w)) →
               u ∈ Db.users (db w) → User.email u = email →
               user_by_email (db w) email = Some u) as Hfirst.
  { intros u Hnd Hu Hue. unfold user_by_email.
    destruct (head (filter (λ u, User.email u = email) (Db.users (db w))))
      as [u'|] eqn:E.
    - apply (head_filter_elem (λ u, User.email u = email)) in E as [Hu' Hue'].
      f_equal. apply (NoDup_fmap_eq User.email (Db.users (db w))); congruence.
    - by destruct (proj1 (head_filter_None (λ u, User.email u = email) _) E u). }
  rewrite Hrun. split_and!.
  - intros Hnone. destruct (user_by_email (db w) email) as [u|] eqn:E; [|done].
    apply (head_filter_elem (λ u, User.email u = email)) in E as [Hu Hue].
    by destruct (Hnone u).
  - intros u Hnd Hu Hue Hchk. by rewrite (Hfirst u), Hchk.
  - intros u Hnd Hu Hue Hchk. by rewrite (Hfirst u), Hchk.
  - destruct (user_by_email (db w) email) as [u|] eqn:E; [|by left].
    apply (head_filter_elem (λ u, User.email u = email)) in E as [Hu Hue].
    destruct (check_password_hash (User.password_hash u) password) eqn:Hchk;
      [right; by exists u | by left].
Qed.

Lemma login_binds_session_on_match_only_witness :
  run (login (P:=Sample.platform)
         (Sample.post [("email", "elee@wsu.edu"); ("password", "guess")]))
      Sample.anonymous =
    (render_template login_html,
     {| db := Sample.store;
        session := ∅;
        flashed := [("Invalid email or password.", "danger")] |})
  ∧ session
      (run (login (P:=Sample.platform)
              (Sample.post [("email", "elee@wsu.edu"); ("password", "demo-lee")]))
           Sample.anonymous).2 !! "user_id" = Some 3%Z.
Proof.
  split.
  - apply (login_binds_session_on_match_only (P:=Sample.platform) Sample.anonymous
             (Sample.post [("email", "elee@wsu.edu"); ("password", "guess")])
             "elee@wsu.edu" "guess" eq_refl eq_refl eq_refl) with (u := Sample.lee).
    + apply (bool_decide_unpack _); vm_compute; exact I.
    + vm_compute. do 2 right. left.
    + reflexivity.
    + vm_compute; reflexivity.
  - destruct (login_binds_session_on_match_only (P:=Sample.platform) Sample.anonymous
                (Sample.post [("email", "elee@wsu.edu"); ("password", "demo-lee")])
                "elee@wsu.edu" "demo-lee" eq_refl eq_refl eq_refl)
      as (_ & _ & Hok & _).
    rewrite (Hok Sample.lee).
    + vm_compute; reflexivity.
    + apply (bool_decide_unpack _); vm_compute; exact I.
    + vm_compute. do 2 right. left.
    + reflexivity.
    + vm_compute; reflexivity.
Defined.

(** ** Dashboard and listing *)

(** C6. For a logged-in user whose role is "admin", the dashboard's
    [my_appointments] is its [total_appointments], the number of rows of the
    appointments table, whatever those rows are. *)
Theorem dashboard_admin_counts_all w u :
  logged_in w u →
  User.role u = "admin" →
  run dashboard w =
    (render_template
       (dashboard_html u
          (length (Db.appointments (db w)))
          (length (Db.appointments (db w)))
          (fst <$> dept_counts (db w))
          (snd <$> dept_counts (db w))),
     w).
Proof.
  intros Hu Hrole. rewrite (dashboard_logged_in w u Hu), Hrole.
  rewrite decide_False by done. by rewrite decide_False.
Qed.

Lemma dashboard_admin_counts_all_witness :
  ∃ labels values,
    run dashboard (Sample.world_of 1) =
      (render_template (dashboard_html Sample.admin 3 3 labels values),
       Sample.world_of 1).
Proof.
  exists (fst <$> dept_counts Sample.store), (snd <$> dept_counts Sample.store).
  apply (dashboard_admin_counts_all (Sample.world_of 1) Sample.admin).
  - sample_user 1%Z.
  - reflexivity.
Defined.

(** C9. For a logged-in user whose role is neither "student" nor "faculty",
    whatever else that text is, the listing shows every row of the
    appointments table and the dashboard's [my_appointments] is its
    [total_appointments]. *)
Theorem other_roles_see_all w u :
  logged_in w u →
  User.role u ≠ "student" →
  User.role u ≠ "faculty" →
  run appointments w =
    (render_template (appointments_html (Db.appointments (db w)) u), w)
  ∧ run dashboard w =
    (render_template
       (dashboard_html u
          (length (Db.appointments (db w)))
          (length (Db.appointments (db w)))
          (fst <$> dept_counts (db w))
          (snd <$> dept_counts (db w))),
     w).
Proof.
  intros Hu Hs Hf. rewrite (appointments_logged_in w u Hu), (dashboard_logged_in w u Hu).
  by rewrite !(decide_False (P := User.role u = "student")),
             !(decide_False (P := User.role u = "faculty")).
Qed.

Lemma other_roles_see_all_witness :
  run appointments (Sample.world_of 7) =
    (render_template
       (appointments_html [Sample.appt1; Sample.appt2; Sample.appt3] Sample.registrar),
     Sample.world_of 7).
Proof.
  apply (other_roles_see_all (Sample.world_of 7) Sample.registrar).
  - sample_user 7%Z.
  - vm_compute; discriminate.
  - vm_compute; discriminate.
Defined.

(** ** Availability *)

(** A POST by a faculty member with the three fields always appends the slot. *)
Lemma availability_post w u req day st en :
  logged_in w u →
  User.role u = "faculty" →
  method req = "POST" →
  form req !! "day_of_week" = Some day →
  form req !! "start_time" = Some st →
  form req !! "end_time" = Some en →
  let slot :=
    Availability.mk
      (next_rowid (Availability.availability_id <$> Db.availability (db w)))
      (User.user_id u) day st en (Some true) in
  let d' := Db.with_availability (Db.availability (db w) ++ [slot]) (db w) in
  run (availability req) w =
    (render_template
       (availability_html
          (filter (λ s, Availability.faculty_id s = User.user_id u) (Db.availability d'))),
     {| db := d';
        session := session w;
        flashed := flashed w ++ [("Availability slot added.", "success")] |}).
Proof.
  intros Hu Hrole Hm Hd Hs He slot d'.
  enter_view Hu. unfold_handler.
  rewrite Hrole, Hm; simpl. rewrite Hd; simpl. rewrite Hs; simpl. by rewrite He.
Qed.

(** C8. For a logged-in faculty member, a POST to [availability] with a day, a
    start and an end succeeds whatever slots are stored and whatever the two
    times are, and appends one slot with the availability flag true under a
    new key; two such calls in a row, of any two slots, leave two more rows. *)
Theorem availability_never_rejects w u req1 req2 day1 st1 en1 day2 st2 en2 :
  logged_in w u →
  User.role u = "faculty" →
  method req1 = "POST" →
  form req1 !! "day_of_week" = Some day1 →
  form req1 !! "start_time" = Some st1 →
  form req1 !! "end_time" = Some en1 →
  method req2 = "POST" →
  form req2 !! "day_of_week" = Some day2 →
  form req2 !! "start_time" = Some st2 →
  form req2 !! "end_time" = Some en2 →
  let rows := Db.availability (db w) in
  let slot1 :=
    Availability.mk (next_rowid (Availability.availability_id <$> rows))
      (User.user_id u) day1 st1 en1 (Some true) in
  let slot2 :=
    Availability.mk (next_rowid (Availability.availability_id <$> rows ++ [slot1]))
      (User.user_id u) day2 st2 en2 (Some true) in
  let first := run (availability req1) w in
  let second := run (availability req2) first.2 in
  (∃ slots, first.1 = render_template (availability_html slots))
  ∧ db first.2 = Db.with_availability (rows ++ [slot1]) (db w)
  ∧ flashed first.2 = flashed w ++ [("Availability slot added.", "success")]
  ∧ (Availability.availability_id slot1 ∉ Availability.availability_id <$> rows)
  ∧ (∃ slots, second.1 = render_template (availability_html slots))
  ∧ db second.2 = Db.with_availability (rows ++ [slot1; slot2]) (db w)
  ∧ flashed second.2 = flashed first.2 ++ [("Availability slot added.", "success")]
  ∧ Availability.availability_id slot2 ≠ Availability.availability_id slot1.
Proof.
  intros Hu Hrole Hm1 Hd1 Hs1 He1 Hm2 Hd2 Hs2 He2 rows slot1 slot2 first second.
  pose proof (availability_post w u req1 _ _ _ Hu Hrole Hm1 Hd1 Hs1 He1) as E1.
  fold rows slot1 first in E1.
  assert (logged_in first.2 u) as Hu'.
  { rewrite E1. by apply (logged_in_same w). }
  pose proof (availability_post first.2 u req2 _ _ _ Hu' Hrole Hm2 Hd2 Hs2 He2) as E2.
  fold second in E2. rewrite E2. rewrite E1; simpl.
  split_and!; try done.
  - by eexists.
  - apply next_rowid_fresh.
  - by eexists.
  - unfold Db.with_availability; simpl. by rewrite <- (assoc_L (++)).
  - intros E.
    apply (next_rowid_fresh (Availability.availability_id <$> rows ++ [slot1])).
    fold (Availability.availability_id slot2). rewrite E, fmap_app. set_solver.
Qed.

Lemma availability_never_rejects_witness :
  let req1 := Sample.post [("day_of_week", "Mon"); ("start_time", "09:00");
                           ("end_time", "11:00")] in
  let req2 := Sample.post [("day_of_week", "Mon"); ("start_time", "10:30");
                           ("end_time", "10:00")] in
  Db.availability
    (db (run (availability req2) (run (availability req1) (Sample.world_of 2)).2).2)
  = [Sample.slot1;
     Availability.mk 2 2 "Mon" "09:00" "11:00" (Some true);
     Availability.mk 3 2 "Mon" "10:30" "10:00" (Some true)].
Proof.
  intros req1 req2.
  destruct (availability_never_rejects (Sample.world_of 2) Sample.johnson req1 req2
              "Mon" "09:00" "11:00" "Mon" "10:30" "10:00")
    as (_ & _ & _ & _ & _ & E & _).
  - sample_user 2%Z.
  - reflexivity.
  - reflexivity.
  - vm_compute; reflexivity.
  - vm_compute; reflexivity.
  - vm_compute; reflexivity.
  - reflexivity.
  - vm_compute; reflexivity.
  - vm_compute; reflexivity.
  - vm_compute; reflexivity.
  - rewrite E. vm_compute; reflexivity.
Defined.

(** ** The aggregate query of the dashboard *)

Lemma bump_sum k g : sum_list (snd <$> bump k g) = S (sum_list (snd <$> g)).
Proof.
  induction g as [|[k' n] g IH]; csimpl; [done|].
  destruct (decide (k' = k)); csimpl; [done|]. rewrite IH. lia.
Qed.

Lemma bump_keys k g x : x ∈ fst <$> bump k g ↔ x = k ∨ x ∈ fst <$> g.
Proof.
  induction g as [|[k' n] g IH]; csimpl.
  - rewrite list_elem_of_singleton. split; [by left|]. intros [?|Hx]; [done|inversion Hx].
  - destruct (decide (k' = k)) as [->|]; csimpl; rewrite !elem_of_cons; [tauto|].
    rewrite IH. tauto.
Qed.

Lemma bump_positive k g :
  Forall (λ p, 1 ≤ p.2) g → Forall (λ p, 1 ≤ p.2) (bump k g).
Proof.
  induction 1 as [|[k' n] g Hn Hg IH]; simpl.
  - repeat constructor.
  - destruct (decide (k' = k)); constructor; simpl in *; auto with lia.
Qed.

Lemma foldl_bump keys : ∀ g,
  let g' := foldl (λ groups k, bump k groups) g keys in
  sum_list (snd <$> g') = length keys + sum_list (snd <$> g)
  ∧ (∀ x, x ∈ fst <$> g' ↔ x ∈ keys ∨ x ∈ fst <$> g)
  ∧ (Forall (λ p, 1 ≤ p.2) g → Forall (λ p, 1 ≤ p.2) g').
Proof.
  induction keys as [|k keys IH]; intros g; simpl.
  - split_and!; [done| |done]. intros x. split; [by right|].
    intros [Hx|?]; [inversion Hx|done].
  - destruct (IH (bump k g)) as (Hsum & Hkeys & Hpos). split_and!.
    + rewrite Hsum, bump_sum. lia.
    + intros x. rewrite Hkeys, bump_keys, elem_of_cons. tauto.
    + intros Hg. by apply Hpos, bump_positive.
Qed.

Lemma dept_join_elem d dep fu a :
  (dep, fu, a) ∈ dept_join d ↔
    dep ∈ Db.departments d
    ∧ fu ∈ Db.users d
    ∧ User.department_id fu = Some (DInt (Department.department_id dep))
    ∧ a ∈ Db.appointments d
    ∧ Appointment.faculty_id a = User.user_id fu.
Proof.
  unfold dept_join. rewrite list_elem_of_bind. split.
  - intros (dep' & H1 & Hdep). apply list_elem_of_bind in H1 as (fu' & H1 & Hfu).
    apply list_elem_of_bind in H1 as (a' & H1 & Ha).
    apply list_elem_of_singleton in H1. injection H1 as -> -> ->.
    apply list_elem_of_filter in Hfu as [? ?]. apply list_elem_of_filter in Ha as [? ?].
    done.
  - intros (Hdep & Hfu & Hd & Ha & Hf). exists dep. split; [|done].
    apply list_elem_of_bind. exists fu. split; [|by apply list_elem_of_filter].
    apply list_elem_of_bind. exists a. split; [|by apply list_elem_of_filter].
    by apply list_elem_of_singleton.
Qed.

Lemma dept_join_NoDup d :
  NoDup (Db.departments d) → NoDup (Db.users d) → NoDup (Db.appointments d) →
  NoDup (dept_join d).
Proof.
  intros Hd Hu Ha. unfold dept_join. apply NoDup_bind; [| |done].
  - intros dep1 dep2 [[dep fu] a] _ _ H1 H2.
    apply list_elem_of_bind in H1 as (? & H1 & _).
    apply list_elem_of_bind in H1 as (? & H1 & _).
    apply list_elem_of_bind in H2 as (? & H2 & _).
    apply list_elem_of_bind in H2 as (? & H2 & _).
    apply list_elem_of_singleton in H1, H2. congruence.
  - intros dep _. apply NoDup_bind; [| |by apply NoDup_filter].
    + intros fu1 fu2 [[dep' fu] a] _ _ H1 H2.
      apply list_elem_of_bind in H1 as (? & H1 & _).
      apply list_elem_of_bind in H2 as (? & H2 & _).
      apply list_elem_of_singleton in H1, H2. congruence.
    + intros fu _. apply NoDup_bind; [| |by apply NoDup_filter].
      * intros a1 a2 y _ _ H1 H2. apply list_elem_of_singleton in H1, H2. congruence.
      * intros a _. apply NoDup_singleton.
Qed.

Lemma dept_join_length d :
  db_consistent d → length (dept_join d) ≤ length (Db.appointments d).
Proof.
  intros Hc.
  pose proof (NoDup_fmap_1 _ _ (department_pk _ Hc)) as Hd.
  pose proof (NoDup_fmap_1 _ _ (user_pk _ Hc)) as Hu.
  pose proof (NoDup_fmap_1 _ _ (appointment_pk _ Hc)) as Ha.
  rewrite <- (length_fmap snd (dept_join d)).
  apply submseteq_length, NoDup_submseteq.
  - apply NoDup_fmap_2_strong; [|by apply dept_join_NoDup].
    intros [[dep1 fu1] a1] [[dep2 fu2] a2] H1 H2 E; simpl in E; subst a2.
    apply dept_join_elem in H1 as (Hd1 & Hu1 & Hdu1 & _ & Hf1).
    apply dept_join_elem in H2 as (Hd2 & Hu2 & Hdu2 & _ & Hf2).
    assert (fu1 = fu2) as ->.
    { apply (NoDup_fmap_eq User.user_id (Db.users d));
        [apply (user_pk _ Hc) | done | done | congruence]. }
    assert (dep1 = dep2) as ->; [|done].
    apply (NoDup_fmap_eq Department.department_id (Db.departments d));
      [apply (department_pk _ Hc) | done | done | congruence].
  - intros a Ha'. apply list_elem_of_fmap in Ha' as ([[dep fu] a'] & -> & Hin).
    apply dept_join_elem in Hin. tauto.
Qed.

Lemma dept_counts_Permutation d :
  dept_counts d
  ≡ₚ group_count ((λ r, Department.department_name r.1.1) <$> dept_join d).
Proof. apply merge_sort_Permutation. Qed.

(** The chart's pairs, whatever their order: the counts add up to the number
    of joined rows, the names are those of the joined rows, and no count is
    zero. *)
Lemma dept_counts_groups d :
  sum_list (snd <$> dept_counts d) = length (dept_join d)
  ∧ (∀ x, x ∈ fst <$> dept_counts d
          ↔ x ∈ (λ r, Department.department_name r.1.1) <$> dept_join d)
  ∧ Forall (λ p, 1 ≤ p.2) (dept_counts d).
Proof.
  destruct (foldl_bump ((λ r, Department.department_name r.1.1) <$> dept_join d) [])
    as (Hsum & Hkeys & Hpos).
  fold (group_count ((λ r, Department.department_name r.1.1) <$> dept_join d)) in *.
  pose proof (dept_counts_Permutation d) as Hperm. split_and!.
  - rewrite Hperm, Hsum, length_fmap. simpl. lia.
  - intros x. rewrite Hperm, Hkeys. split; [|by left].
    intros [?|Hin]; [done|inversion Hin].
  - rewrite Hperm. apply Hpos. constructor.
Qed.

Lemma sample_store_consistent : db_consistent Sample.store.
Proof. split; apply (bool_decide_unpack _); vm_compute; exact I. Qed.

Example dept_counts_sample :
  dept_counts Sample.store = [("Computer Science", 1); ("Mathematics", 2)].
Proof. vm_compute; reflexivity. Qed.

(** With an appointment for Dr. Patel as well, the join meets Mathematics
    before Electrical Engineering; the chart has them by name. *)
Example dept_counts_by_name :
  dept_counts
    (Db.with_appointments
       (Db.appointments Sample.store
          ++ [Appointment.mk 4 6 4 "2024-03-05" "10:00" "11:00" (Some "scheduled") None])
       Sample.store)
  = [("Computer Science", 1); ("Electrical Engineering", 1); ("Mathematics", 2)].
Proof. vm_compute; reflexivity. Qed.

(** C7. On a store that satisfies the schema's key constraints, the
    per-department counts the dashboard renders list a name only with a count
    of at least 1 and only if some appointment's faculty is a user of a
    department of that name; a department none of whose users is the faculty
    of an appointment is not listed; and the counts add up to at most
    [total_appointments]. *)
Theorem dept_counts_inner_join w u :
  logged_in w u →
  db_consistent (db w) →
  let d := db w in
  let counts := dept_counts d in
  (∃ my_appointments,
     run dashboard w =
       (render_template
          (dashboard_html u (length (Db.appointments d)) my_appointments
             (fst <$> counts) (snd <$> counts)),
        w))
  ∧ (∀ name n, (name, n) ∈ counts →
       1 ≤ n
       ∧ ∃ dep fu a,
           dep ∈ Db.departments d ∧ Department.department_name dep = name
           ∧ fu ∈ Db.users d
           ∧ User.department_id fu = Some (DInt (Department.department_id dep))
           ∧ a ∈ Db.appointments d
           ∧ Appointment.faculty_id a = User.user_id fu)
  ∧ (∀ dep, dep ∈ Db.departments d →
       (∀ fu a, fu ∈ Db.users d →
                User.department_id fu = Some (DInt (Department.department_id dep)) →
                a ∈ Db.appointments d →
                Appointment.faculty_id a ≠ User.user_id fu) →
       Department.department_name dep ∉ fst <$> counts)
  ∧ sum_list (snd <$> counts) ≤ length (Db.appointments d).
Proof.
  intros Hu Hc d counts.
  destruct (dept_counts_groups d) as (Hsum & Hkeys & Hpos).
  fold counts in Hsum, Hkeys, Hpos.
  assert (∀ name, name ∈ fst <$> counts →
            ∃ dep fu a, (dep, fu, a) ∈ dept_join d
                        ∧ Department.department_name dep = name) as Hlisted.
  { intros name Hin. apply Hkeys in Hin.
    apply list_elem_of_fmap in Hin as ([[dep fu] a] & -> & Hin). by exists dep, fu, a. }
  split_and!.
  - eexists. apply (dashboard_logged_in w u Hu).
  - intros name n Hin. split.
    + rewrite Forall_forall in Hpos. apply (Hpos (name, n) Hin).
    + destruct (Hlisted name) as (dep & fu & a & Hj & Hn).
      { apply list_elem_of_fmap. by exists (name, n). }
      apply dept_join_elem in Hj. exists dep, fu, a. tauto.
  - intros dep Hdep Hnone Hin.
    destruct (Hlisted _ Hin) as (dep' & fu & a & Hj & Hn).
    apply dept_join_elem in Hj as (Hdep' & Hfu & Hd & Ha & Hf).
    assert (dep' = dep) as ->.
    { apply (NoDup_fmap_eq Department.department_name (Db.departments d));
        [apply (department_name_unique _ Hc) | done | done | done]. }
    by apply (Hnone fu a).
  - rewrite Hsum. by apply dept_join_length.
Qed.

Lemma dept_counts_inner_join_witness :
  sum_list (snd <$> dept_counts Sample.store) ≤ length (Db.appointments Sample.store).
Proof.
  apply (dept_counts_inner_join (Sample.world_of 5) Sample.student).
  - sample_user 5%Z.
  - split; apply (bool_decide_unpack _); vm_compute; exact I.
Defined.

(** ** What one operation does to the store *)

Section effects.
Context {P : Platform}.

Lemma register_effect req salt w :
  db_effect (db w) (db (run (register req salt) w).2).
Proof.
  unfold_view. repeat branch; try apply effect_none.
  all: apply effect_user; [apply next_rowid_fresh | done].
Qed.

Lemma login_effect req w : db_effect (db w) (db (run (login req) w).2).
Proof. unfold_view. repeat branch; apply effect_none. Qed.

Lemma logout_effect w : db_effect (db w) (db (run logout w).2).
Proof. apply effect_none. Qed.

Lemma index_effect w : db_effect (db w) (db (run index w).2).
Proof. unfold_view. repeat branch; apply effect_none. Qed.

Lemma dashboard_effect w : db_effect (db w) (db (run dashboard w).2).
Proof. unfold_view. repeat branch; apply effect_none. Qed.

Lemma appointments_effect w : db_effect (db w) (db (run appointments w).2).
Proof. unfold_view. repeat branch; apply effect_none. Qed.

Lemma new_appointment_effect req now w :
  db_effect (db w) (db (run (new_appointment req now) w).2).
Proof.
  unfold_view. repeat branch; try apply effect_none.
  all: apply (effect_appointment (db w));
    [apply next_rowid_fresh | done | apply next_rowid_fresh].
Qed.

Lemma cancel_appointment_effect appointment_id w :
  db_effect (db w) (db (run (cancel_appointment appointment_id) w).2).
Proof.
  unfold_view. repeat branch; try apply effect_none.
  all: apply effect_cancel.
Qed.

Lemma availability_effect req w :
  db_effect (db w) (db (run (availability req) w).2).
Proof.
  unfold_view. repeat branch; try apply effect_none.
  all: apply effect_availability; apply next_rowid_fresh.
Qed.

Lemma departments_effect req w :
  db_effect (db w) (db (run (departments req) w).2).
Proof.
  unfold_view. repeat branch; try apply effect_none.
  all: apply effect_department; [apply next_rowid_fresh | done].
Qed.

Lemma init_db_effect s1 s2 s3 s4 s5 w :
  db_effect (db w) (db (init_db s1 s2 s3 s4 s5 w).2).
Proof.
  apply effect_reset.
  - split; apply (bool_decide_unpack _); vm_compute; exact I.
  - vm_compute. reflexivity.
Qed.

Lemma step_db_effect w w' : step w w' → db_effect (db w) (db w').
Proof.
  destruct 1;
    eauto using register_effect, login_effect, logout_effect, index_effect,
      dashboard_effect, appointments_effect, new_appointment_effect,
      cancel_appointment_effect, availability_effect, departments_effect,
      init_db_effect, effect_none.
Qed.
End effects.

Lemma NoDup_fmap_snoc {A B} (f : A → B) (l : list A) r :
  NoDup (f <$> l) → f r ∉ f <$> l → NoDup (f <$> l ++ [r]).
Proof.
  intros Hl Hr. rewrite fmap_app. apply NoDup_app. split_and!; [done| |].
  - intros x Hx Hx'. apply list_elem_of_singleton in Hx'. by subst.
  - apply NoDup_singleton.
Qed.

Lemma set_status_of_keys k s (l : list Appointment.t) :
  Appointment.appointment_id <$> set_status_of k s l = Appointment.appointment_id <$> l.
Proof.
  unfold set_status_of. rewrite <- list_fmap_compose. apply list_fmap_ext.
  intros _ a _. simpl. by destruct (decide (Appointment.appointment_id a = k)).
Qed.

(** Every operation keeps the key constraints of the schema. *)
Lemma db_effect_consistent d d' : db_consistent d → db_effect d d' → db_consistent d'.
Proof.
  intros [] Heff.
  destruct Heff; [done| | | | | |done]; split; simpl; try done;
    try by apply NoDup_fmap_snoc.
  by rewrite set_status_of_keys.
Qed.

Lemma reachable_consistent `{P : Platform} w : reachable w → db_consistent (db w).
Proof.
  induction 1 as [s|w w' _ IH Hstep].
  - split; apply NoDup_nil_2.
  - eapply db_effect_consistent; [done|]. by apply step_db_effect.
Qed.

(** ** The status of an appointment *)

(** C3. In every world reachable from an empty store each appointment has
    status "scheduled" or "cancelled"; and across any single operation, each
    appointment of the store afterwards is a row that was there unchanged, or
    a row that was there with its status set to "cancelled", or a row under a
    new key with status "scheduled". *)
Theorem appointment_status_lifecycle `{P : Platform} :
  (∀ w, reachable w →
        ∀ a, a ∈ Db.appointments (db w) →
             Appointment.status a = Some "scheduled"
             ∨ Appointment.status a = Some "cancelled")
  ∧ (∀ w w', step w w' →
        ∀ a', a' ∈ Db.appointments (db w') →
              a' ∈ Db.appointments (db w)
              ∨ (∃ a, a ∈ Db.appointments (db w)
                      ∧ a' = Appointment.set_status "cancelled" a)
              ∨ (Appointment.status a' = Some "scheduled"
                 ∧ Appointment.appointment_id a'
                     ∉ Appointment.appointment_id <$> Db.appointments (db w))).
Proof.
  assert (∀ w w', step w w' →
        ∀ a', a' ∈ Db.appointments (db w') →
              a' ∈ Db.appointments (db w)
              ∨ (∃ a, a ∈ Db.appointments (db w)
                      ∧ a' = Appointment.set_status "cancelled" a)
              ∨ (Appointment.status a' = Some "scheduled"
                 ∧ Appointment.appointment_id a'
                     ∉ Appointment.appointment_id <$> Db.appointments (db w)))
    as Hstep.
  { intros w w' Hs a' Ha'. apply step_db_effect in Hs.
    destruct Hs as [| | | |a n Hfresh Hst _|k|d' _ Hnil]; simpl in Ha'; auto.
    - apply elem_of_app in Ha' as [?|Ha']; [by left|].
      apply list_elem_of_singleton in Ha' as ->. by right; right.
    - unfold set_status_of in Ha'.
      apply list_elem_of_fmap in Ha' as (a & -> & Ha).
      destruct (decide (Appointment.appointment_id a = k)); [|by left].
      right; left. by exists a.
    - rewrite Hnil in Ha'. inversion Ha'. }
  split; [|done].
  induction 1 as [s|w w' _ IH Hs]; intros a Ha.
  - inversion Ha.
  - destruct (Hstep _ _ Hs a Ha) as [Hold|[(a0 & _ & ->)|[Hnew _]]]; auto.
Qed.

Lemma appointment_status_lifecycle_witness :
  let w0 := {| db := Db.empty; session := ∅; flashed := [] |} in
  let w1 := (init_db (P:=Sample.platform) "a" "b" "c" "d" "e" w0).2 in
  let w2 := (run (login (P:=Sample.platform)
                    (Sample.post [("email", "student@university.edu");
                                  ("password", "student123")])) w1).2 in
  let w3 := (run (new_appointment (P:=Sample.platform)
                    (Sample.post [("faculty_id", "2");
                                  ("appointment_date", "2024-03-01");
                                  ("start_time", "09:00"); ("end_time", "10:00");
                                  ("purpose", "thesis")]) 0) w2).2 in
  let w4 := (run (cancel_appointment 1) w3).2 in
  Appointment.mk 1 5 2 "2024-03-01" "09:00" "10:00" (Some "cancelled") (Some "thesis")
    ∈ Db.appointments (db w4)
  ∧ ∀ a, a ∈ Db.appointments (db w4) →
         Appointment.status a = Some "scheduled"
         ∨ Appointment.status a = Some "cancelled".
Proof.
  intros w0 w1 w2 w3 w4. split.
  - vm_compute. left.
  - apply (proj1 (appointment_status_lifecycle (P:=Sample.platform))).
    apply (reachable_step w3); [|apply step_cancel_appointment].
    apply (reachable_step w2); [|apply step_new_appointment].
    apply (reachable_step w1); [|apply step_login].
    apply (reachable_step w0); [|apply step_init_db].
    apply reachable_init.
Defined.


(** * Further properties of the views *)

(** ** The effect of any request *)

Ltac found_user := unfold logged_in; eexists; split_and!; eassumption.

Lemma view_of_effect `{P : Platform} c w : view_effect w (db (run (view_of c) w).2).
Proof.
  destruct c; simpl; unfold_view; repeat branch; try apply view_reads.
  - by apply view_adds_user.
  - by apply view_adds_user.
  - by apply view_adds_user.
  - eapply (view_adds_appointment w); [found_user | by apply dec_stable].
  - match goal with H : get_appointment _ _ = Some _ |- _ =>
      apply get_appointment_key in H as [? _] end.
    eapply view_cancels; [found_user | done..].
  - eapply (view_adds_availability w); [found_user | by apply dec_stable].
  - eapply (view_adds_department w); [found_user | by apply dec_stable | done].
Qed.



(** ** Sessions *)

(** X1. Without "user_id" in the session, each view under [login_required]
    answers with a redirect to the login page and the "Please log in first."
    message, whatever the request is, and leaves store and session alone. *)
Theorem anonymous_is_sent_to_login `{P : Platform} c w :
  session w !! "user_id" = None →
  protected c = true →
  run (view_of c) w =
    (redirect "login",
     {| db := db w; session := session w;
        flashed := flashed w ++ [("Please log in first.", "warning")] |}).
Proof.
  intros Hs Hc. destruct c; try discriminate; simpl; unfold_view; by rewrite Hs.
Qed.

Lemma anonymous_is_sent_to_login_witness :
  run (view_of (P:=Sample.platform) (call_cancel_appointment 1)) Sample.anonymous =
    (redirect "login",
     {| db := Sample.store; session := ∅;
        flashed := [("Please log in first.", "warning")] |}).
Proof.
  apply (anonymous_is_sent_to_login (P:=Sample.platform) (call_cancel_appointment 1)
           Sample.anonymous).
  - vm_compute; reflexivity.
  - reflexivity.
Defined.



(** X3. What each view does to Flask's session, that is to the entries the
    views read (the field [session]) and to the queue of flashed messages that
    [flash] keeps in it (the field [flashed]): a view other than [login] and
    [logout] leaves the entries as they were and can only add messages at the
    end of the queue; [login] does the same but for the entry "user_id";
    [logout] removes every entry and leaves its own message alone in the
    queue.  (Taking messages off the queue is left to the templates, which
    are no part of the views.) *)
Theorem login_state_written_by_login_logout_only `{P : Platform} c w :
  let w' := (run (view_of c) w).2 in
  match c with
  | call_login _ =>
      (∀ k, k ≠ "user_id" → session w' !! k = session w !! k)
      ∧ flashed w `prefix_of` flashed w'
  | call_logout => session w' = ∅ ∧ flashed w' = [("Logged out.", "info")]
  | _ => session w' = session w ∧ flashed w `prefix_of` flashed w'
  end.
Proof.
  destruct c; simpl; unfold_view; repeat branch;
    (split; [|first [done | by apply prefix_app_r]]); try done.
  intros k Hk. by rewrite lookup_insert_ne.
Qed.

(** X4. After [logout] the session is empty and the store is as before, so
    every view under [login_required] called next answers with the redirect
    to the login page. *)
Theorem logout_locks_the_views `{P : Platform} c w :
  protected c = true →
  let w' := (run logout w).2 in
  db w' = db w
  ∧ session w' = ∅
  ∧ (run (view_of c) w').1 = redirect "login"
  ∧ db (run (view_of c) w').2 = db w.
Proof.
  intros Hc w'. subst w'. split_and!; [done|done| |].
  - destruct c; try discriminate; simpl; unfold_view; by rewrite lookup_empty.
  - destruct c; try discriminate; simpl; unfold_view; by rewrite lookup_empty.
Qed.

Lemma logout_locks_the_views_witness :
  (run (view_of (P:=Sample.platform) call_dashboard)
     (run logout (Sample.world_of 1)).2).1 = redirect "login".
Proof.
  apply (logout_locks_the_views (P:=Sample.platform) call_dashboard (Sample.world_of 1)).
  reflexivity.
Defined.

(** ** Requests that fail or are refused *)

(** X5. A request answered with an error (400, 404 or an uncaught exception)
    has written nothing: store, session and message queue are what they
    were. *)
Theorem failed_request_writes_nothing `{P : Platform} c w :
  is_error (run (view_of c) w).1 = true → (run (view_of c) w).2 = w.
Proof.
  destruct c; simpl; unfold_view; repeat branch; simpl; intros E; done.
Qed.

Lemma failed_request_writes_nothing_witness :
  (run (view_of (P:=Sample.platform) (call_cancel_appointment 42)) (Sample.world_of 1)).2
  = Sample.world_of 1.
Proof.
  apply (failed_request_writes_nothing (P:=Sample.platform)
           (call_cancel_appointment 42) (Sample.world_of 1)).
  vm_compute; reflexivity.
Defined.

(** X6. The store changes only through a POST to [register],
    [new_appointment], [availability] or [departments], or through
    [cancel_appointment] (which is reached by GET): any other call leaves
    every table as it was. *)
Theorem store_written_by_forms_and_cancel_only `{P : Platform} c w :
  may_write c = false → db (run (view_of c) w).2 = db w.
Proof.
  destruct c; simpl; intros Hc; try discriminate;
    try apply bool_decide_eq_false in Hc;
    unfold_view; repeat branch; done.
Qed.

Lemma store_written_by_forms_and_cancel_only_witness :
  db (run (view_of (P:=Sample.platform)
             (call_register {| method := "GET"; form := ∅ |} "salt"))
          Sample.anonymous).2
  = Sample.store.
Proof.
  apply (store_written_by_forms_and_cancel_only (P:=Sample.platform)
           (call_register {| method := "GET"; form := ∅ |} "salt") Sample.anonymous).
  vm_compute; reflexivity.
Defined.

(** X7. The role tests come before anything else in the three restricted
    views: for a logged-in user who is not a student, [new_appointment]
    answers with the warning and a redirect whatever the request holds, and
    likewise [availability] for a non-faculty user and [departments] for a
    non-admin user; nothing is written. *)
Theorem role_gates `{P : Platform} w u req now :
  logged_in w u →
  (User.role u ≠ "student" →
   run (new_appointment req now) w =
     (redirect "appointments",
      {| db := db w; session := session w;
         flashed := flashed w
           ++ [("Only students can create appointments in this demo.", "warning")] |}))
  ∧ (User.role u ≠ "faculty" →
     run (availability req) w =
       (redirect "dashboard",
        {| db := db w; session := session w;
           flashed := flashed w
             ++ [("Only faculty can manage availability.", "warning")] |}))
  ∧ (User.role u ≠ "admin" →
     run (departments req) w =
       (redirect "dashboard",
        {| db := db w; session := session w;
           flashed := flashed w
             ++ [("Only admin can manage departments.", "warning")] |})).
Proof.
  intros Hu. split_and!; intros Hrole; enter_view Hu; unfold_handler;
    by rewrite decide_True.
Qed.

Lemma role_gates_witness :
  run (departments
         (Sample.post [("department_name", "Physics"); ("building", "Jabara Hall");
                       ("phone", "316-978-3190")]))
      (Sample.world_of 2) =
    (redirect "dashboard",
     {| db := Sample.store; session := {[ "user_id" := 2%Z ]};
        flashed := [("Only admin can manage departments.", "warning")] |}).
Proof.
  apply (role_gates (P:=Sample.platform) (Sample.world_of 2) Sample.johnson
           (Sample.post [("department_name", "Physics"); ("building", "Jabara Hall");
                         ("phone", "316-978-3190")]) 0).
  - sample_user 2%Z.
  - vm_compute; discriminate.
Defined.

(** ** Registration *)

Lemma max_rowid_in ids m : max_rowid ids = Some m → m ∈ ids.
Proof.
  revert m. induction ids as [|i ids IH]; simpl; intros m Hm; [done|].
  destruct (max_rowid ids) as [m'|]; injection Hm as <-; [|left].
  destruct (Z.max_spec i m') as [[_ ->]|[_ ->]]; [right; by apply IH | left].
Qed.

Lemma next_rowid_positive ids :
  (∀ k, k ∈ ids → (1 ≤ k)%Z) → (1 ≤ next_rowid ids)%Z.
Proof.
  intros Hpos. unfold next_rowid. destruct (max_rowid ids) as [m|] eqn:E; [|done].
  apply max_rowid_in in E. specialize (Hpos m E). lia.
Qed.

Lemma head_filter_snoc {A} (Q : A → Prop) `{!∀ x, Decision (Q x)} (l : list A) x :
  (∀ y, y ∈ l → ¬ Q y) → Q x → head (filter Q (l ++ [x])) = Some x.
Proof.
  intros Hl Hx. rewrite filter_app.
  assert (filter Q l = []) as ->.
  { apply head_None. by apply (head_filter_None Q). }
  simpl. rewrite filter_cons. by rewrite decide_True.
Qed.

Lemma email_not_taken d email :
  email ∉ User.email <$> Db.users d → user_by_email d email = None.
Proof.
  intros Hfree. apply (head_filter_None (λ u, User.email u = email)).
  intros u Hu He. apply Hfree. rewrite <- He. by apply list_elem_of_fmap_2.
Qed.

Lemma email_taken d email :
  email ∈ User.email <$> Db.users d → user_by_email d email ≠ None.
Proof.
  intros Hin Hnone. apply list_elem_of_fmap in Hin as (u & -> & Hu).
  by apply (proj1 (head_filter_None (λ u', User.email u' = User.email u) _) Hnone u).
Qed.

(** A POST to [register] with the four fields and an email no user has. *)
Lemma register_post_fresh `{P : Platform} w req salt name email password role :
  method req = "POST" →
  form req !! "name" = Some name →
  form req !! "email" = Some email →
  form req !! "password" = Some password →
  form req !! "role" = Some role →
  email ∉ User.email <$> Db.users (db w) →
  run (register req salt) w =
    (redirect "login",
     {| db := Db.with_users
                (Db.users (db w)
                   ++ [User.mk (next_rowid (User.user_id <$> Db.users (db w)))
                         name email role (generate_password_hash salt password)
                         (department_of_form req)])
                (db w);
        session := session w;
        flashed := flashed w ++ [("Registration successful. Please log in.", "success")] |}).
Proof.
  intros Hm Hn He Hp Hr Hfree. unfold run, register. rewrite Hm; simpl.
  unfold_handler. rewrite Hn; simpl. rewrite He; simpl. rewrite Hp; simpl.
  rewrite Hr; simpl. rewrite (email_not_taken _ _ Hfree); simpl.
  by rewrite decide_False.
Qed.

(** X8. A POST to [register] with name, email, password and role, the email
    held by no user, appends one user row under a new key with those fields,
    the platform's hash of the password and the department of the form (none
    when the field is missing or empty); no other table, nor the session,
    changes, and emails stay unique. *)
Theorem register_creates_user `{P : Platform} w req salt name email password role :
  method req = "POST" →
  form req !! "name" = Some name →
  form req !! "email" = Some email →
  form req !! "password" = Some password →
  form req !! "role" = Some role →
  email ∉ User.email <$> Db.users (db w) →
  let row :=
    User.mk (next_rowid (User.user_id <$> Db.users (db w))) name email role
      (generate_password_hash salt password)
      match form req !! "department_id" with
      | Some s => if decide (s = "") then None else Some (integer_affinity s)
      | None => None
      end in
  let r := run (register req salt) w in
  r.1 = redirect "login"
  ∧ db r.2 = Db.with_users (Db.users (db w) ++ [row]) (db w)
  ∧ session r.2 = session w
  ∧ (User.user_id row ∉ User.user_id <$> Db.users (db w))
  ∧ (NoDup (User.email <$> Db.users (db w)) →
     NoDup (User.email <$> Db.users (db r.2))).
Proof.
  intros Hm Hn He Hp Hr Hfree row r. unfold r.
  rewrite (register_post_fresh w req salt name email password role) by done.
  simpl. split_and!; [done|done|done|apply next_rowid_fresh|].
  intros Hnd. by apply NoDup_fmap_snoc.
Qed.

Lemma register_creates_user_witness :
  Db.users
    (db (run (register (P:=Sample.platform)
                (Sample.post [("name", "Ann"); ("email", "ann@university.edu");
                              ("password", "pw"); ("role", "student");
                              ("department_id", "")])
                "s") Sample.anonymous).2)
  = Db.users Sample.store
      ++ [User.mk 8 "Ann" "ann@university.edu" "student" "s$pw" None].
Proof.
  destruct (register_creates_user (P:=Sample.platform) Sample.anonymous
              (Sample.post [("name", "Ann"); ("email", "ann@university.edu");
                            ("password", "pw"); ("role", "student");
                            ("department_id", "")])
              "s" "Ann" "ann@university.edu" "pw" "student")
    as (_ & E & _).
  - reflexivity.
  - vm_compute; reflexivity.
  - vm_compute; reflexivity.
  - vm_compute; reflexivity.
  - vm_compute; reflexivity.
  - apply (bool_decide_unpack _); vm_compute; exact I.
  - rewrite E. vm_compute; reflexivity.
Defined.

(** X9. Registering and then logging in with the same email and password
    makes the new row the current user, with the role exactly as submitted
    (any text, "admin" included), provided the platform's check accepts the
    hash it made for that password and the stored user keys are positive. *)
Theorem register_then_login `{P : Platform}
    w req salt name email password role req' :
  method req = "POST" →
  form req !! "name" = Some name →
  form req !! "email" = Some email →
  form req !! "password" = Some password →
  form req !! "role" = Some role →
  email ∉ User.email <$> Db.users (db w) →
  (∀ k, k ∈ User.user_id <$> Db.users (db w) → (1 ≤ k)%Z) →
  check_password_hash (generate_password_hash salt password) password = true →
  method req' = "POST" →
  form req' !! "email" = Some email →
  form req' !! "password" = Some password →
  let w1 := (run (register req salt) w).2 in
  let r2 := run (login req') w1 in
  ∃ u, r2.1 = redirect "dashboard"
       ∧ logged_in r2.2 u
       ∧ User.email u = email
       ∧ User.role u = role
       ∧ Db.users (db r2.2) = Db.users (db w) ++ [u].
Proof.
  intros Hm Hn He Hp Hr Hfree Hpos Hchk Hm' He' Hp' w1 r2.
  set (u := User.mk (next_rowid (User.user_id <$> Db.users (db w))) name email role
              (generate_password_hash salt password) (department_of_form req)).
  assert (w1 = {| db := Db.with_users (Db.users (db w) ++ [u]) (db w);
                  session := session w;
                  flashed := flashed w
                    ++ [("Registration successful. Please log in.", "success")] |})
    as Hw1.
  { unfold w1. by rewrite (register_post_fresh w req salt name email password role). }
  assert (user_by_email (db w1) email = Some u) as Hfind.
  { rewrite Hw1. unfold user_by_email; simpl.
    apply (head_filter_snoc (λ u, User.email u = email)); [|done].
    intros y Hy Hye. apply Hfree. rewrite <- Hye. by apply list_elem_of_fmap_2. }
  assert (r2 = (redirect "dashboard",
                {| db := db w1;
                   session := <["user_id" := User.user_id u]> (session w1);
                   flashed := flashed w1 ++ [("Logged in successfully.", "success")] |}))
    as Hr2.
  { unfold r2, run, login. rewrite Hm'; simpl. unfold_handler.
    rewrite He'; simpl. rewrite Hp'; simpl. rewrite Hfind; simpl.
    by rewrite Hchk. }
  exists u. rewrite Hr2; simpl. split_and!; try done.
  - exists (User.user_id u). split_and!.
    + apply lookup_insert_eq.
    + pose proof (next_rowid_positive _ Hpos). simpl. lia.
    + rewrite Hw1. unfold get_user; simpl.
      apply (head_filter_snoc (λ u', User.user_id u' = User.user_id u)); [|done].
      intros y Hy Hyk.
      apply (next_rowid_fresh (User.user_id <$> Db.users (db w))).
      simpl in Hyk. rewrite <- Hyk. by apply list_elem_of_fmap_2.
  - by rewrite Hw1.
Qed.

Lemma register_then_login_witness :
  let req := Sample.post [("name", "Mallory"); ("email", "m@example.org");
                          ("password", "pw"); ("role", "admin")] in
  let req' := Sample.post [("email", "m@example.org"); ("password", "pw")] in
  ∃ u, (run (login (P:=Sample.platform) req')
          (run (register (P:=Sample.platform) req "s") Sample.anonymous).2).1
       = redirect "dashboard"
       ∧ logged_in
           (run (login (P:=Sample.platform) req')
              (run (register (P:=Sample.platform) req "s") Sample.anonymous).2).2 u
       ∧ User.email u = "m@example.org"
       ∧ User.role u = "admin"
       ∧ Db.users
           (db (run (login (P:=Sample.platform) req')
                  (run (register (P:=Sample.platform) req "s") Sample.anonymous).2).2)
         = Db.users (db Sample.anonymous) ++ [u].
Proof.
  intros req req'.
  apply (register_then_login (P:=Sample.platform) Sample.anonymous req "s"
           "Mallory" "m@example.org" "pw" "admin" req').
  - reflexivity.
  - vm_compute; reflexivity.
  - vm_compute; reflexivity.
  - vm_compute; reflexivity.
  - vm_compute; reflexivity.
  - apply (bool_decide_unpack _); vm_compute; exact I.
  - apply Forall_forall. apply (bool_decide_unpack _); vm_compute; exact I.
  - vm_compute; reflexivity.
  - reflexivity.
  - vm_compute; reflexivity.
  - vm_compute; reflexivity.
Defined.

(** X10. [register] never ends in an uncaught exception: its own test for the
    email comes before the insert, so the unique constraint on emails cannot
    fire.  Its answers are the two redirects, the form page, or 400 for a
    missing field. *)
Theorem register_responses `{P : Platform} req salt w :
  let r := (run (register req salt) w).1 in
  r = redirect "register" ∨ r = redirect "login"
  ∨ r = render_template (register_html (Db.departments (db w)))
  ∨ r = http_error 400.
Proof.
  unfold_view. repeat branch; auto.
  all: exfalso;
    match goal with
    | H : user_by_email _ ?e = None, Hin : ?e ∈ _ |- _ => exact (email_taken _ _ Hin H)
    end.
Qed.

(** ** Departments *)

(** X11. For a logged-in admin, a POST to [departments] with name, building
    and phone appends the department under a new key and lists it when no
    department has that name; when one has, the unique constraint stops the
    request with an uncaught [IntegrityError] and nothing is written. *)
Theorem departments_post `{P : Platform} w u req name building phone :
  logged_in w u →
  User.role u = "admin" →
  method req = "POST" →
  form req !! "department_name" = Some name →
  form req !! "building" = Some building →
  form req !! "phone" = Some phone →
  let rows := Db.departments (db w) in
  let row :=
    Department.mk (next_rowid (Department.department_id <$> rows)) name
      (Some building) (Some phone) in
  (name ∉ Department.department_name <$> rows →
   run (departments req) w =
     (render_template (departments_html (rows ++ [row])),
      {| db := Db.with_departments (rows ++ [row]) (db w);
         session := session w;
         flashed := flashed w ++ [("Department added.", "success")] |}))
  ∧ (name ∈ Department.department_name <$> rows →
     run (departments req) w = (uncaught "IntegrityError", w)).
Proof.
  intros Hu Hrole Hm Hn Hb Hp rows row.
  split; intros Hname; enter_view Hu; unfold_handler;
    rewrite Hrole, Hm; simpl; rewrite Hn; simpl; rewrite Hb; simpl;
    rewrite Hp; simpl.
  - by rewrite decide_False.
  - by rewrite decide_True.
Qed.

Lemma departments_post_witness :
  run (departments
         (Sample.post [("department_name", "Mathematics"); ("building", "X");
                       ("phone", "1")]))
      (Sample.world_of 1)
  = (uncaught "IntegrityError", Sample.world_of 1).
Proof.
  apply (departments_post (P:=Sample.platform) (Sample.world_of 1) Sample.admin
           (Sample.post [("department_name", "Mathematics"); ("building", "X");
                         ("phone", "1")]) "Mathematics" "X" "1").
  - sample_user 1%Z.
  - reflexivity.
  - reflexivity.
  - vm_compute; reflexivity.
  - vm_compute; reflexivity.
  - vm_compute; reflexivity.
  - apply (bool_decide_unpack _); vm_compute; exact I.
Defined.

(** ** More on cancelling *)

Lemma get_appointment_other d k k' s :
  k' ≠ k →
  get_appointment (Db.with_appointments (set_status_of k s (Db.appointments d)) d) k'
  = get_appointment d k'.
Proof.
  intros Hk. unfold get_appointment; simpl. rewrite head_filter_set_status.
  destruct (head (filter (λ a, Appointment.appointment_id a = k') (Db.appointments d)))
    as [a|] eqn:E; [|done].
  apply (head_filter_elem (λ a, Appointment.appointment_id a = k')) in E as [_ E].
  simpl. rewrite decide_False; [done|congruence].
Qed.

(** X12. Whoever calls [cancel_appointment] and whatever comes of it, the call
    reaches at most the appointment with the key in the URL: every other
    appointment is found as before, the keys of the table and their order do
    not change, and no other table changes. *)
Theorem cancel_appointment_footprint appointment_id w :
  let d := db w in
  let d' := db (run (cancel_appointment appointment_id) w).2 in
  Db.departments d' = Db.departments d
  ∧ Db.users d' = Db.users d
  ∧ Db.availability d' = Db.availability d
  ∧ Db.notifications d' = Db.notifications d
  ∧ Appointment.appointment_id <$> Db.appointments d'
    = Appointment.appointment_id <$> Db.appointments d
  ∧ ∀ k, k ≠ appointment_id → get_appointment d' k = get_appointment d k.
Proof.
  unfold_view. repeat branch; split_and!; try done.
  all: match goal with H : get_appointment _ _ = Some _ |- _ =>
         apply get_appointment_key in H as [_ ->] end.
  all: first [apply set_status_of_keys | intros k Hk; by apply get_appointment_other].
Qed.

(** X13. The student of an appointment and the faculty member of an
    appointment can each cancel it: for them the call goes through and leaves
    the appointment with status "cancelled" and its other columns as they
    were. *)
Theorem owners_can_cancel w u a appointment_id :
  logged_in w u →
  get_appointment (db w) appointment_id = Some a →
  (User.role u = "student" ∧ Appointment.student_id a = User.user_id u)
  ∨ (User.role u = "faculty" ∧ Appointment.faculty_id a = User.user_id u) →
  let r := run (cancel_appointment appointment_id) w in
  r.1 = redirect "appointments"
  ∧ flashed r.2 = flashed w ++ [("Appointment cancelled.", "info")]
  ∧ get_appointment (db r.2) appointment_id
    = Some (Appointment.mk (Appointment.appointment_id a) (Appointment.student_id a)
              (Appointment.faculty_id a) (Appointment.appointment_date a)
              (Appointment.start_time a) (Appointment.end_time a)
              (Some "cancelled") (Appointment.purpose a))
  ∧ Appointment.status <$> get_appointment (db r.2) appointment_id
    = Some (Some "cancelled").
Proof.
  intros Hu Ha Hown r. unfold r.
  rewrite (cancel_appointment_authorized w u a).
  - simpl. rewrite (get_appointment_set_status _ _ "cancelled" _ Ha).
    by split_and!.
  - done.
  - done.
  - intros [Hr Hne]. destruct Hown as [[_ ?]|[Hr' _]]; [done|]. by rewrite Hr in Hr'.
  - intros [Hr Hne]. destruct Hown as [[Hr' _]|[_ ?]]; [|done]. by rewrite Hr in Hr'.
Qed.

Lemma owners_can_cancel_witness :
  Appointment.status Sample.appt1 = Some "scheduled"
  ∧ Appointment.status
      <$> get_appointment (db (run (cancel_appointment 1) (Sample.world_of 5)).2) 1
    = Some (Some "cancelled").
Proof.
  split; [reflexivity|].
  apply (owners_can_cancel (Sample.world_of 5) Sample.student Sample.appt1 1).
  - sample_user 5%Z.
  - vm_compute; reflexivity.
  - left. split; reflexivity.
Defined.

(** ** Listing and counting *)

(** X14. For every logged-in user, of whatever role, the dashboard's
    [my_appointments] is the number of rows the [appointments] view lists for
    that user; the listing is a sublist of the table, so that number is at
    most [total_appointments]; a student is listed only appointments whose
    student they are, a faculty member only those whose faculty they are. *)
Theorem dashboard_counts_the_listing w u :
  logged_in w u →
  ∃ listed labels values,
    run appointments w = (render_template (appointments_html listed u), w)
    ∧ run dashboard w =
        (render_template
           (dashboard_html u (length (Db.appointments (db w))) (length listed)
              labels values), w)
    ∧ listed `sublist_of` Db.appointments (db w)
    ∧ length listed ≤ length (Db.appointments (db w))
    ∧ (User.role u = "student" →
       ∀ a, a ∈ listed ↔
            a ∈ Db.appointments (db w) ∧ Appointment.student_id a = User.user_id u)
    ∧ (User.role u = "faculty" →
       ∀ a, a ∈ listed ↔
            a ∈ Db.appointments (db w) ∧ Appointment.faculty_id a = User.user_id u).
Proof.
  intros Hu.
  rewrite (appointments_logged_in w u Hu), (dashboard_logged_in w u Hu).
  destruct (decide (User.role u = "student")) as [Hs|Hs];
    [|destruct (decide (User.role u = "faculty")) as [Hf|Hf]];
    eexists _, _, _; (split_and!; [reflexivity | reflexivity | | | |]).
  - apply sublist_filter.
  - apply length_filter.
  - intros _ a. rewrite list_elem_of_filter. tauto.
  - intros Hf. by rewrite Hs in Hf.
  - apply sublist_filter.
  - apply length_filter.
  - done.
  - intros _ a. rewrite list_elem_of_filter. tauto.
  - done.
  - done.
  - done.
  - done.
Qed.

Lemma dashboard_counts_the_listing_witness :
  ∃ listed labels values,
    run appointments (Sample.world_of 5)
      = (render_template (appointments_html listed Sample.student), Sample.world_of 5)
    ∧ run dashboard (Sample.world_of 5) =
        (render_template (dashboard_html Sample.student 3 (length listed) labels values),
         Sample.world_of 5).
Proof.
  destruct (dashboard_counts_the_listing (Sample.world_of 5) Sample.student)
    as (listed & labels & values & E1 & E2 & _).
  - sample_user 5%Z.
  - exists listed, labels, values. by split.
Defined.

(** ** Booking twice *)

(** A POST to [new_appointment] by a student with the five fields. *)
Lemma new_appointment_post `{P : Platform} w u req now fs F date st en purpose :
  logged_in w u →
  User.role u = "student" →
  method req = "POST" →
  form req !! "faculty_id" = Some fs →
  int fs = Some F →
  fits_int64 F →
  form req !! "appointment_date" = Some date →
  form req !! "start_time" = Some st →
  form req !! "end_time" = Some en →
  form req !! "purpose" = Some purpose →
  let k := next_rowid (Appointment.appointment_id <$> Db.appointments (db w)) in
  run (new_appointment req now) w =
    (redirect "appointments",
     {| db := Db.with_notifications
                (Db.notifications (db w)
                   ++ [Notification.mk
                         (next_rowid
                            (Notification.notification_id <$> Db.notifications (db w)))
                         k ("New appointment on " +:+ date +:+ " at " +:+ st)
                         (Some now) (Some "pending")])
                (Db.with_appointments
                   (Db.appointments (db w)
                      ++ [Appointment.mk k (User.user_id u) F date st en
                            (Some "scheduled") (Some purpose)])
                   (db w));
        session := session w;
        flashed := flashed w ++ [("Appointment created.", "success")] |}).
Proof.
  intros Hu Hrole Hm Hf HF Hfit Hd Hs He Hp k.
  enter_view Hu. unfold_handler.
  rewrite Hrole, Hm; simpl. rewrite Hf; simpl. rewrite HF; simpl.
  rewrite Hd; simpl. rewrite Hs; simpl. rewrite He; simpl. rewrite Hp; simpl.
  by rewrite decide_True.
Qed.

(** X15. Nothing in [new_appointment] looks at the appointments already
    stored, at the availability slots or at who the faculty id belongs to: a
    student who posts the same form twice, with a faculty id that [int] reads
    as an integer of 64 bits, gets two appointments that differ in their key
    only, and two notifications, one for each. *)
Theorem double_booking_is_accepted `{P : Platform}
    w u req now1 now2 fs F date st en purpose :
  logged_in w u →
  User.role u = "student" →
  method req = "POST" →
  form req !! "faculty_id" = Some fs →
  int fs = Some F →
  fits_int64 F →
  form req !! "appointment_date" = Some date →
  form req !! "start_time" = Some st →
  form req !! "end_time" = Some en →
  form req !! "purpose" = Some purpose →
  let r1 := run (new_appointment req now1) w in
  let r2 := run (new_appointment req now2) r1.2 in
  let row k :=
    Appointment.mk k (User.user_id u) F date st en (Some "scheduled") (Some purpose) in
  ∃ k1 k2,
    k1 ≠ k2
    ∧ r1.1 = redirect "appointments"
    ∧ r2.1 = redirect "appointments"
    ∧ Db.appointments (db r2.2) = Db.appointments (db w) ++ [row k1; row k2]
    ∧ Notification.appointment_id <$> Db.notifications (db r2.2)
      = (Notification.appointment_id <$> Db.notifications (db w)) ++ [k1; k2].
Proof.
  intros Hu Hrole Hm Hf HF Hfit Hd Hs He Hp r1 r2 row.
  pose proof (new_appointment_post w u req now1 _ _ _ _ _ _
                Hu Hrole Hm Hf HF Hfit Hd Hs He Hp) as E1.
  fold r1 in E1.
  assert (logged_in r1.2 u) as Hu' by (rewrite E1; by apply (logged_in_same w)).
  pose proof (new_appointment_post r1.2 u req now2 _ _ _ _ _ _
                Hu' Hrole Hm Hf HF Hfit Hd Hs He Hp) as E2.
  fold r2 in E2.
  exists (next_rowid (Appointment.appointment_id <$> Db.appointments (db w))),
         (next_rowid (Appointment.appointment_id <$> Db.appointments (db r1.2))).
  split_and!.
  - intros E.
    apply (next_rowid_fresh (Appointment.appointment_id <$> Db.appointments (db r1.2))).
    rewrite <- E, E1; simpl. rewrite fmap_app. apply elem_of_app. right. simpl. left.
  - by rewrite E1.
  - by rewrite E2.
  - rewrite E2; simpl. rewrite E1; simpl. by rewrite <- (assoc_L (++)).
  - rewrite E2; simpl. rewrite E1; simpl.
    rewrite !fmap_app; simpl. by rewrite <- (assoc_L (++)).
Qed.

Lemma double_booking_is_accepted_witness :
  let req := Sample.post [("faculty_id", "600"); ("appointment_date", "2024-03-01");
                          ("start_time", "09:00"); ("end_time", "08:00");
                          ("purpose", "")] in
  ∃ k1 k2,
    k1 ≠ k2
    ∧ Db.appointments
        (db (run (new_appointment (P:=Sample.platform) req 2)
               (run (new_appointment (P:=Sample.platform) req 1)
                  (Sample.world_of 5)).2).2)
      = Db.appointments Sample.store
          ++ [Appointment.mk k1 5 600 "2024-03-01" "09:00" "08:00" (Some "scheduled")
                (Some "");
              Appointment.mk k2 5 600 "2024-03-01" "09:00" "08:00" (Some "scheduled")
                (Some "")].
Proof.
  intros req.
  destruct (double_booking_is_accepted (P:=Sample.platform) (Sample.world_of 5)
              Sample.student req 1 2 "600" 600 "2024-03-01" "09:00" "08:00" "")
    as (k1 & k2 & Hne & _ & _ & E & _).
  - sample_user 5%Z.
  - reflexivity.
  - reflexivity.
  - vm_compute; reflexivity.
  - vm_compute; reflexivity.
  - unfold fits_int64; lia.
  - vm_compute; reflexivity.
  - vm_compute; reflexivity.
  - vm_compute; reflexivity.
  - vm_compute; reflexivity.
  - exists k1, k2. split; [exact Hne | exact E].
Defined.

(** ** What holds of every store the application builds *)

Lemma get_user_elem d uid u :
  get_user d uid = Some u → u ∈ Db.users d ∧ User.user_id u = uid.
Proof.
  unfold get_user. intros Hh.
  by apply (head_filter_elem (λ u, User.user_id u = uid)) in Hh.
Qed.

Lemma logged_in_elem w u : logged_in w u → u ∈ Db.users (db w).
Proof. intros (uid & _ & _ & Hu). by apply get_user_elem in Hu as [? _]. Qed.

Lemma elem_of_set_status_of k s (l : list Appointment.t) a' :
  a' ∈ set_status_of k s l →
  ∃ a, a ∈ l ∧ (a' = a ∨ a' = Appointment.set_status s a).
Proof.
  unfold set_status_of. intros Hin.
  apply list_elem_of_fmap in Hin as (a & -> & Ha). exists a. split; [done|].
  destruct (decide (Appointment.appointment_id a = k)); auto.
Qed.

Lemma view_effect_invariant `{P : Platform} w d' :
  store_invariant (db w) → view_effect w d' → store_invariant d'.
Proof.
  intros [Hdk Huk Hmir Hpend Hstud Hfac] Heff.
  destruct Heff as [|name email role salt password dept Hfree
                    |u name building phone Hu Hrole Hname
                    |u day st en Hu Hrole
                    |u F date st en purpose now Hu Hrole k
                    |u a Hu Ha _ _]; [done|..]; split; simpl; try done.
  - intros k. rewrite fmap_app, elem_of_app. intros [?|Hk]; [auto|].
    apply list_elem_of_singleton in Hk as ->. by apply next_rowid_positive.
  - intros a Ha. destruct (Hstud a Ha) as (u & ? & ? & ?).
    exists u. rewrite elem_of_app. auto.
  - intros s Hs. destruct (Hfac s Hs) as (? & u & ? & ? & ?). split; [done|].
    exists u. rewrite elem_of_app. auto.
  - intros k. rewrite fmap_app, elem_of_app. intros [?|Hk]; [auto|].
    apply list_elem_of_singleton in Hk as ->. by apply next_rowid_positive.
  - intros s. rewrite elem_of_app. intros [Hs|Hs]; [auto|].
    apply list_elem_of_singleton in Hs as ->. simpl. split; [done|].
    exists u. split_and!; [by apply logged_in_elem | done | done].
  - by rewrite !fmap_app, Hmir.
  - intros n. rewrite elem_of_app. intros [?|Hn]; [auto|].
    by apply list_elem_of_singleton in Hn as ->.
  - intros a. rewrite elem_of_app. intros [?|Ha]; [auto|].
    apply list_elem_of_singleton in Ha as ->. simpl.
    exists u. split_and!; [by apply logged_in_elem | done | done].
  - by rewrite set_status_of_keys.
  - intros a' Ha'. apply elem_of_set_status_of in Ha' as (a0 & Ha0 & [->| ->]); auto.
    apply (Hstud a0 Ha0).
Qed.

Lemma init_db_store `{P : Platform} s1 s2 s3 s4 s5 w :
  (init_db s1 s2 s3 s4 s5 w).1 = inl tt
  ∧ (init_db s1 s2 s3 s4 s5 w).2 =
    {| db :=
         Db.mk
           [Department.mk 1 "Computer Science" (Some "Ahlberg Hall") (Some "316-978-3000");
            Department.mk 2 "Mathematics" (Some "Jabara Hall") (Some "316-978-3160");
            Department.mk 3 "Electrical Engineering" (Some "Wallace Hall")
              (Some "316-978-3400")]
           [User.mk 1 "Admin User" "admin@university.edu" "admin"
              (generate_password_hash s1 "admin123") (Some (DInt 1));
            User.mk 2 "Dr. Johnson (Computer Science)" "johnson@wsu.edu" "faculty"
              (generate_password_hash s2 "demo-johnson") (Some (DInt 1));
            User.mk 3 "Dr. Emily Lee (Mathematics)" "elee@wsu.edu" "faculty"
              (generate_password_hash s3 "demo-lee") (Some (DInt 2));
            User.mk 4 "Dr. Patel (Electrical Engineering)" "patel@wsu.edu" "faculty"
              (generate_password_hash s4 "demo-patel") (Some (DInt 3));
            User.mk 5 "John Student" "student@university.edu" "student"
              (generate_password_hash s5 "student123") (Some (DInt 1))]
           [] [] [];
       session := session w;
       flashed := flashed w |}.
Proof. split; vm_compute; reflexivity. Qed.

Lemma init_db_invariant `{P : Platform} s1 s2 s3 s4 s5 w :
  store_invariant (db (init_db s1 s2 s3 s4 s5 w).2).
Proof.
  rewrite (proj2 (init_db_store s1 s2 s3 s4 s5 w)). split; simpl; try done.
  - intros k Hk. repeat (apply elem_of_cons in Hk as [->|Hk]; [lia|]). inversion Hk.
  - intros k Hk. repeat (apply elem_of_cons in Hk as [->|Hk]; [lia|]). inversion Hk.
  - intros n Hn. inversion Hn.
  - intros a Ha. inversion Ha.
  - intros s Hs. inversion Hs.
Qed.

Lemma step_invariant `{P : Platform} w w' :
  store_invariant (db w) → step w w' → store_invariant (db w').
Proof.
  intros Hinv Hstep. destruct Hstep.
  - apply (view_effect_invariant w); [done|]. apply (view_of_effect (call_register req salt)).
  - apply (view_effect_invariant w); [done|]. apply (view_of_effect (call_login req)).
  - done.
  - apply (view_effect_invariant w); [done|]. apply (view_of_effect call_index).
  - apply (view_effect_invariant w); [done|]. apply (view_of_effect call_dashboard).
  - apply (view_effect_invariant w); [done|]. apply (view_of_effect call_appointments).
  - apply (view_effect_invariant w); [done|].
    apply (view_of_effect (call_new_appointment req now)).
  - apply (view_effect_invariant w); [done|].
    apply (view_of_effect (call_cancel_appointment appointment_id)).
  - apply (view_effect_invariant w); [done|]. apply (view_of_effect (call_availability req)).
  - apply (view_effect_invariant w); [done|]. apply (view_of_effect (call_departments req)).
  - apply init_db_invariant.
  - done.
Qed.

Lemma reachable_invariant `{P : Platform} w : reachable w → store_invariant (db w).
Proof.
  induction 1 as [s|w w' _ IH Hstep].
  - split; simpl; try done; intros ? Hin; inversion Hin.
  - by apply (step_invariant w).
Qed.

Lemma sample_history_reachable : reachable (P:=Sample.platform) Sample.history.
Proof.
  unfold Sample.history.
  eapply reachable_step; [|apply step_availability].
  eapply reachable_step; [|apply step_login].
  eapply reachable_step; [|apply step_new_appointment].
  eapply reachable_step; [|apply step_login].
  eapply reachable_step; [|apply step_init_db].
  apply reachable_init.
Qed.

Example sample_history_rows :
  Db.appointments (db Sample.history)
    = [Appointment.mk 1 5 2 "2024-03-01" "09:00" "10:00" (Some "scheduled")
         (Some "thesis")]
  ∧ Db.availability (db Sample.history)
    = [Availability.mk 1 2 "Mon" "09:00" "11:00" (Some true)]
  ∧ session Sample.history !! "user_id" = Some 2%Z.
Proof. split_and!; vm_compute; reflexivity. Qed.

(** X16. In every world reachable from an empty store the notifications
    match the appointments one for one and in order (the i-th notification
    refers to the i-th appointment), and every notification is still
    "pending": nothing ever sends, changes or removes one. *)
Theorem notifications_mirror_the_appointments `{P : Platform} w :
  reachable w →
  Notification.appointment_id <$> Db.notifications (db w)
    = Appointment.appointment_id <$> Db.appointments (db w)
  ∧ length (Db.notifications (db w)) = length (Db.appointments (db w))
  ∧ ∀ n, n ∈ Db.notifications (db w) → Notification.sent_status n = Some "pending".
Proof.
  intros Hr. destruct (reachable_invariant w Hr) as [_ _ Hmir Hpend _ _].
  split_and!; [done| |done].
  apply (f_equal length) in Hmir. by rewrite !length_fmap in Hmir.
Qed.

Lemma notifications_mirror_the_appointments_witness :
  length (Db.notifications (db Sample.history))
  = length (Db.appointments (db Sample.history)).
Proof.
  apply (notifications_mirror_the_appointments (P:=Sample.platform) Sample.history).
  exact sample_history_reachable.
Defined.

(** X17. In every world reachable from an empty store, the student of each
    appointment is a stored user whose role is "student", and each
    availability slot has its flag true and belongs to a stored user whose
    role is "faculty".  (Nothing of the kind holds of an appointment's
    faculty id, which is stored as posted.) *)
Theorem rows_belong_to_users_of_the_right_role `{P : Platform} w :
  reachable w →
  (∀ a, a ∈ Db.appointments (db w) →
        ∃ u, u ∈ Db.users (db w) ∧ User.user_id u = Appointment.student_id a
             ∧ User.role u = "student")
  ∧ (∀ s, s ∈ Db.availability (db w) →
          Availability.is_available s = Some true
          ∧ ∃ u, u ∈ Db.users (db w) ∧ User.user_id u = Availability.faculty_id s
                 ∧ User.role u = "faculty").
Proof. intros Hr. by destruct (reachable_invariant w Hr) as [_ _ _ _ Hstud Hfac]. Qed.

Lemma rows_belong_to_users_of_the_right_role_witness :
  ∃ u, u ∈ Db.users (db Sample.history) ∧ User.user_id u = 2%Z
       ∧ User.role u = "faculty".
Proof.
  destruct (rows_belong_to_users_of_the_right_role (P:=Sample.platform) Sample.history
              sample_history_reachable) as [_ Hslots].
  destruct (Hslots (Availability.mk 1 2 "Mon" "09:00" "11:00" (Some true)))
    as (_ & u & Hu & Hk & Hrole).
  - vm_compute. left.
  - exists u. split_and!; [exact Hu | exact Hk | exact Hrole].
Defined.

(** X18. In every world reachable from an empty store the keys of each table
    are pairwise distinct, emails and department names are unique, and the
    keys of users and departments are at least 1 (so no stored user has the
    key 0, which [current_user()] would take for no user). *)
Theorem reachable_keys `{P : Platform} w :
  reachable w →
  db_consistent (db w)
  ∧ (∀ u, u ∈ Db.users (db w) → (1 ≤ User.user_id u)%Z)
  ∧ (∀ r, r ∈ Db.departments (db w) → (1 ≤ Department.department_id r)%Z).
Proof.
  intros Hr. destruct (reachable_invariant w Hr) as [Hdk Huk _ _ _ _].
  split_and!.
  - by apply reachable_consistent.
  - intros u Hu. by apply Huk, list_elem_of_fmap_2.
  - intros r Hin. by apply Hdk, list_elem_of_fmap_2.
Qed.

Lemma reachable_keys_witness : db_consistent (db Sample.history).
Proof.
  apply (reachable_keys (P:=Sample.platform) Sample.history).
  exact sample_history_reachable.
Defined.

(** X19. In a world reachable from an empty store, a successful login makes
    its user the current user of the views that follow: the key put in the
    session is not 0 and is the key of that user alone. *)
Theorem login_resolves_to_its_user `{P : Platform} w req email password u :
  reachable w →
  method req = "POST" →
  form req !! "email" = Some email →
  form req !! "password" = Some password →
  user_by_email (db w) email = Some u →
  check_password_hash (User.password_hash u) password = true →
  (run (login req) w).1 = redirect "dashboard"
  ∧ logged_in (run (login req) w).2 u.
Proof.
  intros Hr Hm He Hp Hfind Hchk.
  destruct (reachable_invariant w Hr) as [_ Huk _ _ _ _].
  pose proof (reachable_consistent w Hr) as [_ _ Hpk _ _ _ _].
  apply (head_filter_elem (λ u, User.email u = email)) in Hfind as Hu.
  destruct Hu as [Hu _].
  assert (run (login req) w =
          (redirect "dashboard",
           {| db := db w;
              session := <["user_id" := User.user_id u]> (session w);
              flashed := flashed w ++ [("Logged in successfully.", "success")] |}))
    as ->.
  { unfold run, login. rewrite Hm; simpl. unfold_handler.
    rewrite He; simpl. rewrite Hp; simpl. rewrite Hfind; simpl. by rewrite Hchk. }
  split; [done|]. exists (User.user_id u). simpl. split_and!.
  - apply lookup_insert_eq.
  - assert (1 ≤ User.user_id u)%Z by by apply Huk, list_elem_of_fmap_2. lia.
  - unfold get_user.
    destruct (head (filter (λ u', User.user_id u' = User.user_id u) (Db.users (db w))))
      as [u'|] eqn:E.
    + apply (head_filter_elem (λ u', User.user_id u' = User.user_id u)) in E as [Hu' Hk].
      f_equal. by apply (NoDup_fmap_eq User.user_id (Db.users (db w))).
    + by destruct (proj1 (head_filter_None
                            (λ u', User.user_id u' = User.user_id u) _) E u).
Qed.

Lemma login_resolves_to_its_user_witness :
  ∃ u, User.email u = "elee@wsu.edu"
       ∧ logged_in
           (run (login (P:=Sample.platform)
                   (Sample.post [("email", "elee@wsu.edu"); ("password", "demo-lee")]))
                Sample.history).2 u.
Proof.
  exists (User.mk 3 "Dr. Emily Lee (Mathematics)" "elee@wsu.edu" "faculty"
            "c$demo-lee" (Some (DInt 2))).
  split; [reflexivity|].
  apply (login_resolves_to_its_user (P:=Sample.platform) Sample.history
           (Sample.post [("email", "elee@wsu.edu"); ("password", "demo-lee")])
           "elee@wsu.edu" "demo-lee").
  - exact sample_history_reachable.
  - reflexivity.
  - vm_compute; reflexivity.
  - vm_compute; reflexivity.
  - vm_compute; reflexivity.
  - vm_compute; reflexivity.
Defined.


(** ** More on the chart of the dashboard *)

Lemma bump_count k g k' :
  sum_list (snd <$> filter (λ p, p.1 = k') (bump k g))
  = sum_list (snd <$> filter (λ p, p.1 = k') g) + (if decide (k' = k) then 1 else 0).
Proof.
  induction g as [|[k0 n0] g IH].
  - cbn [bump]. rewrite filter_cons, filter_nil. cbn [fst].
    destruct (decide (k = k')) as [->|]; csimpl.
    + by rewrite decide_True.
    + by rewrite decide_False.
  - cbn [bump]. destruct (decide (k0 = k)) as [->|Hne]; rewrite !filter_cons; cbn [fst].
    + destruct (decide (k = k')) as [->|]; csimpl.
      * rewrite decide_True by done. lia.
      * by rewrite decide_False.
    + destruct (decide (k0 = k')) as [->|]; csimpl; rewrite IH; [|done].
      rewrite decide_False by done. lia.
Qed.

Lemma bump_NoDup k g : NoDup (fst <$> g) → NoDup (fst <$> bump k g).
Proof.
  induction g as [|[k0 n0] g IH]; simpl; intros Hnd.
  - apply NoDup_singleton.
  - apply NoDup_cons in Hnd as [Hk0 Hnd].
    destruct (decide (k0 = k)) as [->|Hne]; csimpl.
    + by apply NoDup_cons.
    + apply NoDup_cons. split; [|by apply IH].
      rewrite bump_keys. intros [?|?]; done.
Qed.

Lemma count_of_listed (g : list (string * nat)) k n :
  NoDup (fst <$> g) → (k, n) ∈ g →
  sum_list (snd <$> filter (λ p, p.1 = k) g) = n.
Proof.
  induction g as [|[k0 n0] g IH]; csimpl; intros Hnd Hin; [inversion Hin|].
  apply NoDup_cons in Hnd as [Hk0 Hnd]. rewrite filter_cons; simpl.
  apply elem_of_cons in Hin as [Heq|Hin].
  - injection Heq as <- <-. rewrite decide_True by done. csimpl.
    assert (filter (λ p : string * nat, p.1 = k) g = []) as ->; [|simpl; lia].
    apply head_None. apply (head_filter_None (λ p : string * nat, p.1 = k)).
    intros [k1 n1] Hin1 Hk1. simpl in Hk1. subst k1.
    apply Hk0. apply list_elem_of_fmap. by exists (k, n1).
  - destruct (decide (k0 = k)) as [->|]; [|by apply IH].
    exfalso. apply Hk0. apply list_elem_of_fmap. by exists (k, n).
Qed.

Lemma group_count_spec keys :
  NoDup (fst <$> group_count keys)
  ∧ ∀ k, sum_list (snd <$> filter (λ p, p.1 = k) (group_count keys))
         = length (filter (λ x, x = k) keys).
Proof.
  unfold group_count. induction keys as [|k0 keys IH] using rev_ind.
  - split; [apply NoDup_nil_2|done].
  - destruct IH as [Hnd Hcount]. rewrite foldl_snoc. split.
    + by apply bump_NoDup.
    + intros k. rewrite bump_count, Hcount, filter_app, length_app, filter_cons, filter_nil.
      destruct (decide (k = k0)) as [->|].
      * by rewrite decide_True.
      * by rewrite decide_False.
Qed.

(** X20. The chart of the dashboard names each department at most once, and
    the count beside a name is the number of rows of the join (department,
    user of it, appointment whose faculty that user is) under that name. *)
Theorem dept_counts_exact d :
  NoDup (fst <$> dept_counts d)
  ∧ ∀ name n, (name, n) ∈ dept_counts d →
      n = length (filter (λ r, Department.department_name r.1.1 = name) (dept_join d)).
Proof.
  destruct (group_count_spec ((λ r, Department.department_name r.1.1) <$> dept_join d))
    as [Hnd Hcount].
  pose proof (dept_counts_Permutation d) as Hperm.
  split; [by rewrite Hperm|]. intros name n Hin. rewrite Hperm in Hin.
  rewrite <- (count_of_listed _ _ _ Hnd Hin), Hcount.
  generalize (dept_join d). intros l. induction l as [|r l IH]; [done|].
  rewrite fmap_cons, !filter_cons.
  destruct (decide (Department.department_name r.1.1 = name)); simpl; by rewrite IH.
Qed.

(** ** No view removes or rewrites a row *)

(** X21. Across any request handled by a view, every table but appointments
    keeps its rows and can only get more at its end; the appointments keep
    their keys and positions, and an appointment that was there is found at
    the same place, unchanged or with nothing but its status set to
    "cancelled". *)
Theorem views_only_append `{P : Platform} c w :
  let d := db w in
  let d' := db (run (view_of c) w).2 in
  Db.departments d `prefix_of` Db.departments d'
  ∧ Db.users d `prefix_of` Db.users d'
  ∧ Db.availability d `prefix_of` Db.availability d'
  ∧ Db.notifications d `prefix_of` Db.notifications d'
  ∧ (Appointment.appointment_id <$> Db.appointments d)
      `prefix_of` (Appointment.appointment_id <$> Db.appointments d')
  ∧ ∀ i a, Db.appointments d !! i = Some a →
      ∃ a', Db.appointments d' !! i = Some a'
            ∧ (a' = a ∨ a' = Appointment.set_status "cancelled" a).
Proof.
  intros d d'. subst d d'.
  destruct (view_of_effect c w); simpl; split_and!; try done;
    try (by apply prefix_app_r); try (intros i a0 Hi; by eauto).
  - rewrite fmap_app. by apply prefix_app_r.
  - intros i a0 Hi. exists a0. split; [|by left]. by apply lookup_app_l_Some.
  - by rewrite set_status_of_keys.
  - intros i a0 Hi. unfold set_status_of. rewrite list_lookup_fmap, Hi. simpl.
    eexists. split; [done|]. destruct (decide _); auto.
Qed.

(** ** The [init-db] command *)

(** X22. [init-db] cannot fail and does not depend on what the store held:
    it leaves the three sample departments and the five sample users under
    the keys 1.. in the order of the source, every user in a department that
    exists, and no availability, appointment or notification; the session is
    not touched. *)
Theorem init_db_resets `{P : Platform} s1 s2 s3 s4 s5 w :
  let r := init_db s1 s2 s3 s4 s5 w in
  r.1 = inl tt
  ∧ session r.2 = session w
  ∧ (λ r, (Department.department_id r, Department.department_name r))
      <$> Db.departments (db r.2)
    = [(1%Z, "Computer Science"); (2%Z, "Mathematics"); (3%Z, "Electrical Engineering")]
  ∧ (λ u, (User.user_id u, User.email u, User.role u)) <$> Db.users (db r.2)
    = [(1%Z, "admin@university.edu", "admin"); (2%Z, "johnson@wsu.edu", "faculty");
       (3%Z, "elee@wsu.edu", "faculty"); (4%Z, "patel@wsu.edu", "faculty");
       (5%Z, "student@university.edu", "student")]
  ∧ (∀ u, u ∈ Db.users (db r.2) →
          ∃ dep, dep ∈ Db.departments (db r.2)
                 ∧ User.department_id u = Some (DInt (Department.department_id dep)))
  ∧ Db.availability (db r.2) = []
  ∧ Db.appointments (db r.2) = []
  ∧ Db.notifications (db r.2) = [].
Proof.
  intros r. subst r. destruct (init_db_store s1 s2 s3 s4 s5 w) as [-> ->]. simpl.
  split_and!; try done.
  intros u Hu.
  repeat (apply elem_of_cons in Hu as [->|Hu];
          [first [ eexists; split; [left | reflexivity]
                 | eexists; split; [right; left | reflexivity]
                 | eexists; split; [do 2 right; left | reflexivity] ]|]).
  inversion Hu.
Qed.

(** ** Forms that do not parse *)

(** X23. For a logged-in student posting to [new_appointment], the faculty id
    is read and parsed first: without the field the answer is 400; with a
    value [int] does not accept, the view stops with an uncaught
    [ValueError], even if other fields are missing too; with a faculty id
    that parses, any other of the four fields missing gives 400.  In each
    case nothing is written. *)
Theorem new_appointment_bad_form `{P : Platform} w u req now :
  logged_in w u →
  User.role u = "student" →
  method req = "POST" →
  (form req !! "faculty_id" = None →
   run (new_appointment req now) w = (http_error 400, w))
  ∧ (∀ fs, form req !! "faculty_id" = Some fs → int fs = None →
           run (new_appointment req now) w = (uncaught "ValueError", w))
  ∧ (∀ fs F, form req !! "faculty_id" = Some fs → int fs = Some F →
             form req !! "appointment_date" = None
             ∨ form req !! "start_time" = None
             ∨ form req !! "end_time" = None
             ∨ form req !! "purpose" = None →
             run (new_appointment req now) w = (http_error 400, w)).
Proof.
  intros Hu Hrole Hm. split_and!.
  - intros Hf. enter_view Hu. unfold_handler. rewrite Hrole, Hm; simpl.
    by rewrite Hf.
  - intros fs Hf HF. enter_view Hu. unfold_handler. rewrite Hrole, Hm; simpl.
    rewrite Hf; simpl. by rewrite HF.
  - intros fs F Hf HF Hmiss. enter_view Hu. unfold_handler. rewrite Hrole, Hm; simpl.
    rewrite Hf; simpl. rewrite HF; simpl.
    destruct (form req !! "appointment_date"); simpl; [|done].
    destruct (form req !! "start_time"); simpl; [|done].
    destruct (form req !! "end_time"); simpl; [|done].
    destruct (form req !! "purpose"); simpl; [|done].
    by destruct Hmiss as [?|[?|[?|?]]].
Qed.

Lemma new_appointment_bad_form_witness :
  run (new_appointment (P:=Sample.platform)
         (Sample.post [("faculty_id", "Dr. Lee")]) 0) (Sample.world_of 5)
  = (uncaught "ValueError", Sample.world_of 5).
Proof.
  apply (new_appointment_bad_form (P:=Sample.platform) (Sample.world_of 5)
           Sample.student (Sample.post [("faculty_id", "Dr. Lee")]) 0)
    with (fs := "Dr. Lee").
  - sample_user 5%Z.
  - reflexivity.
  - reflexivity.
  - vm_compute; reflexivity.
  - vm_compute; reflexivity.
Defined.

(** ** The landing page *)

(** X24. [index] and [login_required] test the session the same way: [index]
    sends a request to the login page exactly when any view under
    [login_required] would, so the dashboard it redirects to never bounces
    the request back. *)
Theorem index_agrees_with_login_required `{P : Platform} c w :
  protected c = true →
  (run index w).1 = redirect "login" ↔ (run (view_of c) w).1 = redirect "login".
Proof.
  intros Hc. destruct (session w !! "user_id") as [uid|] eqn:Hs.
  - split.
    + unfold_view. by rewrite Hs.
    + destruct c; try discriminate; simpl; unfold_view; rewrite Hs;
        repeat branch; intros E; discriminate E.
  - split; intros _.
    + destruct c; try discriminate; simpl; unfold_view; by rewrite Hs.
    + unfold_view. by rewrite Hs.
Qed.

Lemma index_agrees_with_login_required_witness :
  (run index Sample.anonymous).1 = redirect "login"
  ↔ (run (view_of (P:=Sample.platform) call_dashboard) Sample.anonymous).1
    = redirect "login".
Proof.
  apply (index_agrees_with_login_required (P:=Sample.platform) call_dashboard
           Sample.anonymous).
  reflexivity.
Defined.

(** ** Roles the code does not name *)

(** X25. The ownership tests of [cancel_appointment] name the roles "student"
    and "faculty" only: a logged-in user with any other role text, not just
    "admin", cancels any existing appointment. *)
Theorem other_roles_cancel_any w u a appointment_id :
  logged_in w u →
  get_appointment (db w) appointment_id = Some a →
  User.role u ≠ "student" →
  User.role u ≠ "faculty" →
  let r := run (cancel_appointment appointment_id) w in
  r.1 = redirect "appointments"
  ∧ flashed r.2 = flashed w ++ [("Appointment cancelled.", "info")]
  ∧ get_appointment (db r.2) appointment_id
    = Some (Appointment.set_status "cancelled" a).
Proof.
  intros Hu Ha Hs Hf r. unfold r.
  rewrite (cancel_appointment_authorized w u a) by (try done; by intros []).
  simpl. split_and!; [done..|]. by apply get_appointment_set_status.
Qed.

Lemma other_roles_cancel_any_witness :
  get_appointment (db (run (cancel_appointment 1) (Sample.world_of 7)).2) 1
  = Some (Appointment.set_status "cancelled" Sample.appt1).
Proof.
  apply (other_roles_cancel_any (Sample.world_of 7) Sample.registrar Sample.appt1 1).
  - sample_user 7%Z.
  - vm_compute; reflexivity.
  - vm_compute; discriminate.
  - vm_compute; discriminate.
Defined.
